(** * A shallow embedding of the tripmind orchestration engine

    Python sources embedded here (all under [src/backend]):
    - [agents/travel_agent.py]: [TravelAgent.process],
      [TravelAgent._mark_recommendations], [TravelAgent._calculate_score];
    - [agents/intent_classifier.py]: [IntentClassifier.classify];
    - [follow_up_handler.py]: [FollowUpHandler.handle_follow_up],
      [FollowUpHandler._handle_modification];
    - [services/itinerary_service.py]: [ItineraryService.handle_follow_up],
      [ItineraryService._save_itinerary_with_modifier];
    - [shared/types.py]: the pydantic coercions of [Accommodation];
    - [agents/stay_agent.py]: [StayAgent._run_with_retry] (tenacity policy),
      [StayAgent.process] error mapping, [StayAgent._parse_results],
      [StayAgent._create_accommodation_from_dict], [StayAgent._extract_from_text];
    - [agents/planner_agent.py]: [PlannerAgent.process],
      [PlannerAgent._parse_itinerary],
      [PlannerAgent._calculate_budget];
    - [agents/budget_agent.py]: [BudgetAgent.process] and its helpers;
    - [services/orchestrator.py]: [TripOrchestrator._parallel_agents_node]
      and the stage graph.

    Python floats are modelled by exact rationals [Q] (no rounding; [inf]
    and [nan], which have no rational value, are outside the model); Python
    exceptions by the [exc] constructors of a small error monad. Strings are
    UTF-8 byte sequences. *)

From Stdlib Require Import String Ascii List Bool ZArith QArith Lia.
From Stdlib Require Import Qround Lqa.
Import ListNotations.
Open Scope string_scope.
Set Warnings "-register-all".

(** ** Python exceptions and a small error monad *)

Inductive exc : Type :=
  | JSONDecodeError
  | KeyError
  | ValueError
  | TypeError
  | AttributeError
  | OverflowError
  | RuntimeError (msg : string)
  | ProviderError (msg : string).

Inductive result (A : Type) : Type :=
  | Ok (a : A)
  | Raise (e : exc).
Arguments Ok {A} a.
Arguments Raise {A} e.

Definition bind {A B} (m : result A) (k : A -> result B) : result B :=
  match m with
  | Ok a => k a
  | Raise e => Raise e
  end.

Notation "x <- m ;; k" := (bind m (fun x => k))
  (at level 61, m at next level, right associativity).
Notation "' p <- m ;; k" := (bind m (fun x => match x with p => k end))
  (at level 61, p pattern, m at next level, right associativity).

(** ** Strings: Python's [in] on strings and [str.lower] (ASCII) *)

Fixpoint starts_with (p s : string) : bool :=
  match p, s with
  | EmptyString, _ => true
  | String c p', String d s' => Ascii.eqb c d && starts_with p' s'
  | String _ _, EmptyString => false
  end.

(** [contains sub s] is Python's [sub in s]. *)
Fixpoint contains (sub s : string) : bool :=
  starts_with sub s ||
  match s with
  | EmptyString => false
  | String _ s' => contains sub s'
  end.

Definition lower_ascii (c : ascii) : ascii :=
  let n := nat_of_ascii c in
  if Nat.leb 65 n && Nat.leb n 90 then ascii_of_nat (n + 32)%nat else c.

Fixpoint lower (s : string) : string :=
  match s with
  | EmptyString => EmptyString
  | String c s' => String (lower_ascii c) (lower s')
  end.

(** [any(k in s for k in ks)] *)
Definition any_in (ks : list string) (s : string) : bool :=
  existsb (fun k => contains k s) ks.

(** Python's [a < b] on floats. *)
Definition Qlt_bool (a b : Q) : bool := negb (Qle_bool b a).

(** ** Transportation candidates ([shared/types.py], class [Transportation]) *)

Record Transportation := mkTransportation {
  t_id : string;
  t_type : string;
  price : Q;
  duration_minutes : option Z;
  carbon_emissions_kg : option Q;
  recommended : bool;
  recommendation_reason : option string;
  is_airport_transfer : bool   (* [details.get("is_airport_transfer", False)] *)
}.

(** Python truthiness of an [Optional[int]] / [Optional[float]] field. *)
Definition truthy_Z (o : option Z) : option Z :=
  match o with Some z => if Z.eqb z 0 then None else Some z | None => None end.
Definition truthy_Q (o : option Q) : option Q :=
  match o with Some q => if Qeq_bool q 0 then None else Some q | None => None end.

(** [TravelAgent._calculate_score] *)
Definition calculate_score (option : Transportation) (priority : string) : Q :=
  if String.eqb priority "cheapest" then
    if Qlt_bool 0 (price option) then 1000 / price option else 0
  else if String.eqb priority "fastest" then
    match truthy_Z (duration_minutes option) with
    | Some d => 1000 / inject_Z d
    | None => 0
    end
  else if String.eqb priority "greenest" then
    match truthy_Q (carbon_emissions_kg option) with
    | Some e => 1000 / (e + 1)
    | None => 0
    end
  else
    let price_score :=
      if Qlt_bool 0 (price option) then 1000 / (price option + 1) else 0 in
    let time_score :=
      match truthy_Z (duration_minutes option) with
      | Some d => 1000 / (inject_Z d + 1) | None => 0 end in
    let green_score :=
      match truthy_Q (carbon_emissions_kg option) with
      | Some e => 1000 / (e + 1) | None => 0 end in
    price_score * (3 # 10) + time_score * (3 # 10) + green_score * (4 # 10).

(** Python raises [ZeroDivisionError] in [_calculate_score] on an option
    whose [(x + 1)] denominator is zero: a duration of -1 minutes (balanced
    priority) or an emission of -1 kg (greenest or balanced priority). In
    [Q], [x / 0] is 0 instead. *)
Definition score_defined (o : Transportation) : bool :=
  negb (match duration_minutes o with Some d => Z.eqb d (-1) | None => false end) &&
  negb (match carbon_emissions_kg o with Some c => Qeq_bool c (-1) | None => false end).

(** [list.sort(key=lambda x: x[0], reverse=True)]: a stable sort, descending
    on the score; equal scores keep their original order. Scored options are
    kept as [(score, position in all_options)]. *)
Fixpoint insert_desc (x : Q * nat) (l : list (Q * nat)) : list (Q * nat) :=
  match l with
  | [] => [x]
  | y :: l' => if Qle_bool (fst y) (fst x) then x :: y :: l'
               else y :: insert_desc x l'
  end.

Fixpoint sort_desc (l : list (Q * nat)) : list (Q * nat) :=
  match l with
  | [] => []
  | x :: l' => insert_desc x (sort_desc l')
  end.

(** The object mutation [top_option.recommended = True]: the candidate at
    position [i] of the list is the mutated object. *)
Fixpoint mark_at (i : nat) (reason : Transportation -> string)
    (l : list Transportation) : list Transportation :=
  match l, i with
  | [], _ => []
  | t :: l', O =>
      {| t_id := t_id t; t_type := t_type t; price := price t;
         duration_minutes := duration_minutes t;
         carbon_emissions_kg := carbon_emissions_kg t;
         recommended := true;
         recommendation_reason := Some (reason t);
         is_airport_transfer := is_airport_transfer t |} :: l'
  | t :: l', S i' => t :: mark_at i' reason l'
  end.

(** [request.preferences] is absent from the pydantic [TripRequest]; the
    priority is ["balanced"] unless preferences name one. *)
Definition priority_of (preferences_priority : option string) : string :=
  match preferences_priority with Some p => p | None => "balanced" end.

(** [TravelAgent._mark_recommendations] with [routes = []] (the only call).
    [all_options = flights + trains]; the returned list is [all_options]
    after the mutation. *)
Definition mark_recommendations (priority : string)
    (all_options : list Transportation) : list Transportation :=
  let scored := combine (map (fun o => calculate_score o priority) all_options)
                        (seq 0 (length all_options)) in
  match sort_desc scored with
  | [] => all_options
  | (_, i) :: _ =>
      mark_at i (fun t => "Best " ++ t_type t ++ " option based on "
                          ++ priority ++ " priority") all_options
  end.

Definition count_recommended (l : list Transportation) : nat :=
  length (filter recommended l).

(** [TravelAgent.process], from the mode decision on. The search results of
    each agent are inputs; [airport_to_destination] is the result of
    [_get_airport_to_destination_transport] (used in the flight branch). The
    returned list is the run's ["transportation"] entry,
    [flights + trains + cars + buses], after [_mark_recommendations] has
    mutated the objects it shares with [flights] and [trains]. *)
Definition travel_process (preferences_priority : option string)
    (recommended_mode : string)
    (flight_results train_results bus_results cab_results
     airport_to_destination : list Transportation) : list Transportation :=
  let '(flights, trains, cars, buses) :=
    if String.eqb recommended_mode "flight" then
      (firstn 5 flight_results, [], airport_to_destination, [])
    else if String.eqb recommended_mode "train" then
      ([], firstn 5 train_results, [], [])
    else if String.eqb recommended_mode "bus" then
      ([], [], [], firstn 5 bus_results)
    else if String.eqb recommended_mode "car" || String.eqb recommended_mode "cab" then
      ([], [], firstn 5 cab_results, [])
    else
      (firstn 5 flight_results, [], [], []) in
  mark_recommendations (priority_of preferences_priority) (flights ++ trains)
    ++ cars ++ buses.

(** Sample candidates. *)
Definition flight_a : Transportation :=
  mkTransportation "flight_1" "flight" 300 (Some 360%Z) (Some 450) false None false.
Definition flight_b : Transportation :=
  mkTransportation "flight_2" "flight" 120 (Some 420%Z) (Some 450) false None false.
Definition flight_c : Transportation :=
  mkTransportation "flight_3" "flight" 0 None None false None false.
Definition bus_a : Transportation :=
  mkTransportation "bus_1" "bus" 45 (Some 240%Z) (Some 12) false None false.
Definition cab_a : Transportation :=
  mkTransportation "car_1" "car" 80 (Some 50%Z) (Some 9) false None false.

(** ** The intent classifier ([agents/intent_classifier.py]) *)

Definition modify_keywords : list string :=
  ["add"; "change"; "modify"; "update"; "replace"; "remove"; "delete";
   "switch"; "edit"; "make it"; "make them"].

Definition query_keywords : list string :=
  ["what"; "which"; "where"; "when"; "how"; "why"; "tell me"; "explain";
   "describe"; "information"; "details"; "about"; "more about"; "is the";
   "are the"; "can you tell"; "do you know"].

Definition chat_keywords : list string :=
  ["hello"; "hi"; "hey"; "thanks"; "thank you"; "ok"; "okay"; "sure"; "yes"; "no"].

Record Classification := mkClassification {
  intent : string;
  category : string;
  action : string;
  confidence : Q;
  original_prompt : string
}.

(** [IntentClassifier.classify] *)
Definition classify (prompt : string) : Classification :=
  let prompt_lower := lower prompt in
  let has_query := any_in query_keywords prompt_lower in
  let has_modify := any_in modify_keywords prompt_lower && negb has_query in
  let has_chat := any_in chat_keywords prompt_lower && negb has_query in
  let category :=
    if any_in ["hotel"; "accommodation"; "stay"; "lodging"; "place to stay"] prompt_lower
    then "accommodation"
    else if any_in ["flight"; "train"; "bus"; "car"; "transport"; "travel";
                    "transportation"; "ride"] prompt_lower
    then "transportation"
    else if any_in ["restaurant"; "food"; "meal"; "dining"; "eat"; "cafe"; "lunch";
                    "dinner"; "breakfast"] prompt_lower
    then "restaurant"
    else if any_in ["activity"; "experience"; "thing to do"; "attraction"; "tour";
                    "sightseeing"] prompt_lower
    then "experience"
    else if any_in ["budget"; "cost"; "price"; "expensive"; "cheap"; "affordable";
                    "money"] prompt_lower
    then "budget"
    else "general" in
  let action :=
    if any_in ["add"; "more"; "additional"; "extra"] prompt_lower then "add"
    else if any_in ["change"; "modify"; "update"; "switch"; "replace"] prompt_lower
    then "change"
    else if any_in ["remove"; "delete"; "cancel"] prompt_lower then "remove"
    else if any_in ["find"; "get"; "show"; "give"] prompt_lower then "find"
    else if has_query then "info"
    else if has_chat then "chat"
    else "info" in
  let '(intent, confidence) :=
    if has_query then ("query", 9 # 10)
    else if has_modify then ("modify", 8 # 10)
    else if has_chat then ("chat", 9 # 10)
    else ("query", 5 # 10) in
  {| intent := intent; category := category; action := action;
     confidence := confidence; original_prompt := prompt |}.

(** ** Follow-up handling ([follow_up_handler.py], [services/itinerary_service.py]) *)

(** The stored plan ([TripPlan]); each stage's records are kept by id. *)
Record TripPlan := mkTripPlan {
  plan_accommodations : list string;
  plan_restaurants : list string;
  plan_transportation : list string;
  plan_experiences : list string;
  plan_itinerary_days : nat;
  plan_budget_total : Q
}.

(** The collaborators of [FollowUpHandler]: what each stage agent's
    [process] returns (its record list, or an exception), the itinerary
    assembly [planner_agent.process] over the four stage lists, and the
    answer of [qa_agent.answer_question] (or the exception it raises). *)
Record Agents := mkAgents {
  stay_stage : result (list string);
  restaurant_stage : result (list string);
  travel_stage : result (list string);
  experience_stage : result (list string);
  planner_stage : list string -> list string -> list string -> list string -> result TripPlan;
  qa_answer : string -> TripPlan -> result string
}.

Record Response := mkResponse {
  resp_type : string;
  resp_itinerary : option TripPlan;
  resp_answer : option string;
  resp_message : string
}.

Definition couldnt_message : string :=
  "⚠️  I couldn't make that change. Could you be more specific? (e.g., 'add more restaurants' or 'find cheaper flights')".

Definition updated_message (prompt : string) : string :=
  "✅ I've updated your itinerary based on your request: " ++ prompt.

(** The stage names invoked during a call are logged, so that "no stage was
    re-run" is observable. *)
Definition run_stage (name : string) (r : result (list string))
    (log : list string) : result (list string * list string) :=
  match r with
  | Ok l => Ok (l, app log [name])
  | Raise e => Raise e
  end.

Definition is_add_change_find (action : string) : bool :=
  existsb (String.eqb action) ["add"; "change"; "find"].

(** [FollowUpHandler._handle_modification]. The result carries the response
    and the log of invoked stages. A stage result is truthy iff its record
    list is non-empty. *)
Definition handle_modification (ag : Agents) (prompt : string)
    (intent : Classification) (itinerary : TripPlan)
    : result (Response * list string) :=
  let category := category intent in
  let action := action intent in
  let stay0 := plan_accommodations itinerary in
  let rest0 := plan_restaurants itinerary in
  let trav0 := plan_transportation itinerary in
  let exp0 := plan_experiences itinerary in
  let rerun (name : string) (r : result (list string)) :=
    if is_add_change_find action then run_stage name r [] else Ok ([], []) in
  st <- (if String.eqb category "accommodation" then
           '(l, log) <- rerun "stay" (stay_stage ag) ;;
           Ok (match l with [] => (false, stay0, rest0, trav0, exp0, log)
                       | _ => (true, l, rest0, trav0, exp0, log) end)
         else if String.eqb category "restaurant" then
           '(l, log) <- rerun "restaurant" (restaurant_stage ag) ;;
           Ok (match l with [] => (false, stay0, rest0, trav0, exp0, log)
                       | _ => (true, stay0, l, trav0, exp0, log) end)
         else if String.eqb category "transportation" then
           '(l, log) <- rerun "travel" (travel_stage ag) ;;
           Ok (match l with [] => (false, stay0, rest0, trav0, exp0, log)
                       | _ => (true, stay0, rest0, l, exp0, log) end)
         else if String.eqb category "experience" then
           '(l, log) <- rerun "experience" (experience_stage ag) ;;
           Ok (match l with [] => (false, stay0, rest0, trav0, exp0, log)
                       | _ => (true, stay0, rest0, trav0, l, log) end)
         else Ok (false, stay0, rest0, trav0, exp0, [])) ;;
  let '(modified, stay, rest, trav, exp, log) := st in
  if modified then
    updated <- planner_stage ag stay rest trav exp ;;
    Ok ({| resp_type := "modification"; resp_itinerary := Some updated;
           resp_answer := None; resp_message := updated_message prompt |},
        app log ["planner"])
  else
    Ok ({| resp_type := "modification"; resp_itinerary := Some itinerary;
           resp_answer := None; resp_message := couldnt_message |}, log).

(** [FollowUpHandler._handle_chat] *)
Definition handle_chat (prompt : string) : string :=
  let prompt_lower := lower prompt in
  if any_in ["thanks"; "thank you"; "thank"] prompt_lower then
    "You're welcome! Happy to help with your trip planning. Is there anything else you'd like to know or change?"
  else if any_in ["hello"; "hi"; "hey"] prompt_lower then
    "Hello! I'm here to help you with your trip. You can ask me questions about your itinerary or request changes."
  else if any_in ["yes"; "ok"; "okay"; "sure"] prompt_lower then
    "Great! What would you like to do? You can ask questions about your itinerary or request modifications."
  else
    "I'm here to help with your trip! You can ask me questions about your itinerary or request changes. What would you like to know or modify?".

(** [FollowUpHandler.handle_follow_up] *)
Definition handle_follow_up (ag : Agents) (prompt : string) (current : TripPlan)
    : result (Response * list string) :=
  let cls := classify prompt in
  if String.eqb (intent cls) "modify" then
    handle_modification ag prompt cls current
  else if String.eqb (intent cls) "query" then
    answer <- qa_answer ag prompt current ;;
    Ok ({| resp_type := "query"; resp_itinerary := None;
           resp_answer := Some answer;
           resp_message := "Here's the information you requested:" |}, [])
  else
    Ok ({| resp_type := "chat"; resp_itinerary := None;
           resp_answer := Some (handle_chat prompt); resp_message := "" |}, []).

(** One stored version row of [itinerary_versions]. *)
Record PlanVersion := mkPlanVersion {
  version_number : nat;
  modified_by : string;
  version_plan : TripPlan
}.

(** The rows of one [(user_id, trip_id)] key: the [itineraries] record and
    its [itinerary_versions]. *)
Record Store := mkStore {
  main_itinerary : TripPlan;
  versions : list PlanVersion
}.

Definition max_version (vs : list PlanVersion) : nat :=
  fold_right (fun v m => Nat.max (version_number v) m) 0%nat vs.

(** [ItineraryService._save_itinerary_with_modifier] *)
Definition save_itinerary_with_modifier (s : Store) (plan : TripPlan)
    (modifier : string) : Store :=
  let new_version := S (max_version (versions s)) in
  {| main_itinerary := plan;
     versions := app (versions s) [{| version_number := new_version;
                                   modified_by := modifier;
                                   version_plan := plan |}] |}.

(** [ItineraryService.handle_follow_up] for an existing itinerary: the plan
    is loaded from [itineraries], the handler runs, and a version is saved
    when [result["type"] == "modification" and result.get("itinerary")]. *)
Definition service_handle_follow_up (ag : Agents) (s : Store) (prompt : string)
    (modifier : string) : result (Response * list string * Store) :=
  '(resp, log) <- handle_follow_up ag prompt (main_itinerary s) ;;
  match resp_itinerary resp with
  | Some updated_plan =>
      if String.eqb (resp_type resp) "modification" then
        Ok (resp, log, save_itinerary_with_modifier s updated_plan modifier)
      else Ok (resp, log, s)
  | None => Ok (resp, log, s)
  end.

(** Sample plan, collaborators and store. *)
Definition plan0 : TripPlan :=
  mkTripPlan ["acc_1"] ["rest_1"; "rest_2"] ["flight_1"] ["exp_1"] 3 1200.

Definition plan1 : TripPlan :=
  mkTripPlan ["acc_1"] ["rest_3"] ["flight_1"] ["exp_1"] 3 1250.

(** Every stage returns no records; the planner would assemble [plan1]. *)
Definition agents_empty : Agents :=
  mkAgents (Ok []) (Ok []) (Ok []) (Ok [])
    (fun _ _ _ _ => Ok plan1) (fun _ _ => Ok "answer").

(** The restaurant stage returns one new record. *)
Definition agents_new_restaurant : Agents :=
  mkAgents (Ok []) (Ok ["rest_3"]) (Ok []) (Ok [])
    (fun _ _ _ _ => Ok plan1) (fun _ _ => Ok "answer").

Definition store0 : Store :=
  mkStore plan0 [mkPlanVersion 1 "user_1" plan0].

(** ** The retry policy of [_run_with_retry] (tenacity) and its caller *)

(** [str(e)] *)
Definition exc_message (e : exc) : string :=
  match e with
  | RuntimeError m | ProviderError m => m
  | _ => ""
  end.

Definition newline : ascii := ascii_of_nat 10.

(** The text before the first line break. *)
Fixpoint first_line (s : string) : string :=
  match s with
  | EmptyString => EmptyString
  | String c s' => if Ascii.eqb c newline then EmptyString else String c (first_line s')
  end.

Definition rate_limit_markers : list string :=
  ["rate limit"; "429"; "quota"; "too many requests"; "resource exhausted"].

(** [retry_if_exception_message(match=r".*(rate limit|429|quota|too many
    requests|resource exhausted).*")]: tenacity tests
    [re.match(pattern, str(e))]. [re.match] anchors at the start and [.]
    matches any character but a line break, so the pattern matches exactly
    when a marker occurs, case-sensitively, in the first line of the
    message. *)
Definition retry_predicate (e : exc) : bool :=
  any_in rate_limit_markers (first_line (exc_message e)).

(** [stop_after_attempt(3)], [reraise=True]. [call k] is the outcome of the
    [k]-th call of the wrapped generation request (from 1). The result is
    the outcome surfaced to the caller and the number of calls made. The
    waits between attempts ([wait_exponential]) do not change outcomes and
    are not modelled. *)
Fixpoint retry_from (call : nat -> result string) (k : nat) (budget : nat)
    : result string * nat :=
  match call k with
  | Ok text => (Ok text, k)
  | Raise e =>
      if retry_predicate e then
        match budget with
        | O => (Raise e, k)
        | S b => retry_from call (S k) b
        end
      else (Raise e, k)
  end.

Definition stop_after_attempt : nat := 3.

Definition run_with_retry (call : nat -> result string) : result string * nat :=
  retry_from call 1 (stop_after_attempt - 1).

Definition rate_limit_guidance : string :=
  "API rate limit exceeded. Please wait a few minutes and try again. The Google Gemini API has usage limits. Consider upgrading your plan or waiting before retrying.".

(** The [except] clause of [StayAgent.process] (identical in
    [PlannerAgent.process]) around [_run_with_retry]. *)
Definition surface_error (e : exc) : exc :=
  let error_msg := lower (exc_message e) in
  if contains "rate limit" error_msg || contains "429" error_msg ||
     contains "quota" error_msg || contains "resource exhausted" error_msg
  then RuntimeError rate_limit_guidance
  else RuntimeError ("Error calling Google Gemini API: " ++ exc_message e ++
                     ". Make sure GOOGLE_API_KEY is set correctly.").

Definition call_generation (call : nat -> result string) : result string * nat :=
  match run_with_retry call with
  | (Ok text, n) => (Ok text, n)
  | (Raise e, n) => (Raise (surface_error e), n)
  end.

(** A provider whose every call fails with the same error. *)
Definition always_failing (msg : string) : nat -> result string :=
  fun _ => Raise (ProviderError msg).

(** ** JSON values and a fragment of [json.loads] *)

Inductive json : Type :=
  | JNull
  | JBool (b : bool)
  | JInt (z : Z)
  | JFloat (q : Q)
  | JStr (s : string)
  | JArr (l : list json)
  | JObj (kv : list (string * json)).

(** A decoded JSON object is a Python [dict]: with duplicate keys the last
    one wins. *)
Definition dict_lookup (k : string) (kv : list (string * json)) : option json :=
  fold_left (fun acc p => if String.eqb (fst p) k then Some (snd p) else acc) kv None.

(** [d.get(k, default)] *)
Definition dict_get (kv : list (string * json)) (k : string) (default : json) : json :=
  match dict_lookup k kv with Some v => v | None => default end.

(** [len(d)]: the number of distinct keys. *)
Definition dict_len (kv : list (string * json)) : nat :=
  length (nodup string_dec (map fst kv)).

(** JSON whitespace (space, tab, newline, carriage return), skipped by the
    decoder. *)
Definition is_ws (c : ascii) : bool :=
  existsb (Ascii.eqb c) [ascii_of_nat 32; ascii_of_nat 9; ascii_of_nat 10; ascii_of_nat 13].

Fixpoint skip_ws (s : string) : string :=
  match s with
  | String c s' => if is_ws c then skip_ws s' else s
  | EmptyString => s
  end.

Definition rev_string (s : string) : string :=
  string_of_list_ascii (rev (list_ascii_of_string s)).

(** Strings are UTF-8 byte sequences; a whitespace code point is given by
    its encoding. The Unicode (non-ASCII) white space: U+0085, U+00A0,
    U+1680, U+2000..U+200A, U+2028, U+2029, U+202F, U+205F, U+3000. *)
Definition utf8 (l : list nat) : list ascii := map ascii_of_nat l.

Definition unicode_spaces : list (list ascii) :=
  map utf8 [[194;133]; [194;160]; [225;154;128];
            [226;128;128]; [226;128;129]; [226;128;130]; [226;128;131];
            [226;128;132]; [226;128;133]; [226;128;134]; [226;128;135];
            [226;128;136]; [226;128;137]; [226;128;138];
            [226;128;168]; [226;128;169]; [226;128;175]; [226;129;159];
            [227;128;128]]%nat.

(** Python's [str.isspace]: U+0009..U+000D, U+001C..U+001F, U+0020 and the
    Unicode white space. *)
Definition py_whitespace : list (list ascii) :=
  map (fun n => [ascii_of_nat n]) [9;10;11;12;13;28;29;30;31;32]%nat ++ unicode_spaces.

(** Rust's [char::is_whitespace], used by [str::trim]: U+0009..U+000D,
    U+0020 and the Unicode white space. *)
Definition rust_whitespace : list (list ascii) :=
  map (fun n => [ascii_of_nat n]) [9;10;11;12;13;32]%nat ++ unicode_spaces.

Fixpoint prefixb (p l : list ascii) : bool :=
  match p, l with
  | [], _ => true
  | a :: p', b :: l' => Ascii.eqb a b && prefixb p' l'
  | _ :: _, [] => false
  end.

(** Drops leading code points of [ws]; each step drops at least one byte. *)
Fixpoint drop_spaces (ws : list (list ascii)) (fuel : nat) (l : list ascii)
    : list ascii :=
  match fuel with
  | O => l
  | S f => match find (fun p => prefixb p l) ws with
           | Some p => drop_spaces ws f (skipn (length p) l)
           | None => l
           end
  end.

(** Removes the leading and trailing code points of [ws]. *)
Definition strip_spaces (ws : list (list ascii)) (s : string) : string :=
  let l := list_ascii_of_string s in
  let l1 := drop_spaces ws (length l) l in
  string_of_list_ascii
    (rev (drop_spaces (map (@rev ascii) ws) (length l1) (rev l1))).

(** [str.strip()] *)
Definition strip (s : string) : string := strip_spaces py_whitespace s.

(** Rust's [str::trim()] *)
Definition rust_trim (s : string) : string := strip_spaces rust_whitespace s.

Definition digit_value (c : ascii) : option nat :=
  let n := nat_of_ascii c in
  if Nat.leb 48 n && Nat.leb n 57 then Some (n - 48)%nat else None.

(** The maximal run of decimal digits at the front: its value, its length and
    the rest. *)
Fixpoint take_digits (s : string) (acc : Z) (len : nat) : Z * nat * string :=
  match s with
  | String c s' =>
      match digit_value c with
      | Some d => take_digits s' (acc * 10 + Z.of_nat d)%Z (S len)
      | None => (acc, len, s)
      end
  | EmptyString => (acc, len, s)
  end.

(** Number syntax of the fragment: [-]digits[.digits]. *)
Definition parse_number (s : string) : option (json * string) :=
  let '(neg, s1) := match s with
                    | String "-" s' => (true, s')
                    | _ => (false, s)
                    end in
  let '(ip, il, s2) := take_digits s1 0%Z 0 in
  if Nat.eqb il 0 then None else
  match s2 with
  | String "." s3 =>
      let '(fp, fl, s4) := take_digits s3 0%Z 0 in
      if Nat.eqb fl 0 then None else
      let q := (inject_Z ip + inject_Z fp / inject_Z (10 ^ Z.of_nat fl))%Q in
      Some (JFloat (if neg then - q else q)%Q, s4)
  | _ => Some (JInt (if neg then - ip else ip)%Z, s2)
  end.

(** String syntax of the fragment: no escape sequences. *)
Fixpoint parse_string_body (s : string) (acc : list ascii) : option (string * string) :=
  match s with
  | EmptyString => None
  | String c s' =>
      if Ascii.eqb c (ascii_of_nat 34) then Some (string_of_list_ascii (rev acc), s')
      else if Ascii.eqb c (ascii_of_nat 92) then None
      else parse_string_body s' (c :: acc)
  end.

Fixpoint parse_value (fuel : nat) (s : string) : option (json * string) :=
  match fuel with
  | O => None
  | S f =>
      let s := skip_ws s in
      if starts_with "null" s then Some (JNull, substring 4 (String.length s) s)
      else if starts_with "true" s then Some (JBool true, substring 4 (String.length s) s)
      else if starts_with "false" s then Some (JBool false, substring 5 (String.length s) s)
      else match s with
      | String "[" s' =>
          match skip_ws s' with
          | String "]" s'' => Some (JArr [], s'')
          | _ => parse_elements f s' []
          end
      | String "{" s' =>
          match skip_ws s' with
          | String "}" s'' => Some (JObj [], s'')
          | _ => parse_members f s' []
          end
      | String c s' =>
          if Ascii.eqb c (ascii_of_nat 34) then
            match parse_string_body s' [] with
            | Some (str, rest) => Some (JStr str, rest)
            | None => None
            end
          else parse_number s
      | EmptyString => None
      end
  end
with parse_elements (fuel : nat) (s : string) (acc : list json) : option (json * string) :=
  match fuel with
  | O => None
  | S f =>
      match parse_value f s with
      | Some (v, rest) =>
          match skip_ws rest with
          | String "," rest' => parse_elements f rest' (v :: acc)
          | String "]" rest' => Some (JArr (rev (v :: acc)), rest')
          | _ => None
          end
      | None => None
      end
  end
with parse_members (fuel : nat) (s : string) (acc : list (string * json))
    : option (json * string) :=
  match fuel with
  | O => None
  | S f =>
      match skip_ws s with
      | String c s1 =>
          if Ascii.eqb c (ascii_of_nat 34) then
            match parse_string_body s1 [] with
            | Some (k, s2) =>
                match skip_ws s2 with
                | String ":" s3 =>
                    match parse_value f s3 with
                    | Some (v, s4) =>
                        match skip_ws s4 with
                        | String "," s5 => parse_members f s5 ((k, v) :: acc)
                        | String "}" s5 => Some (JObj (rev ((k, v) :: acc)), s5)
                        | _ => None
                        end
                    | None => None
                    end
                | _ => None
                end
            | None => None
            end
          else None
      | EmptyString => None
      end
  end.

(** [json.loads] on the fragment above (literals, integers, decimals
    without exponent, strings without escapes, arrays, objects); text the
    fragment rejects is reported as [JSONDecodeError]. The extraction
    routine below takes the decoder as a parameter, and the theorems hold
    for every decoder; this one only serves concrete runs. *)
Definition json_loads_fragment (s : string) : result json :=
  match parse_value (S (String.length s)) s with
  | Some (v, rest) =>
      match skip_ws rest with
      | EmptyString => Ok v
      | _ => Raise JSONDecodeError
      end
  | None => Raise JSONDecodeError
  end.

(** ** Lodging extraction ([StayAgent._parse_results] and helpers) *)

(** [s.find(sub, start)]: the first index [>= start] where [sub] occurs,
    or [-1]. *)
Fixpoint find_from_aux (sub s : string) (i : nat) : option nat :=
  if starts_with sub s then Some i
  else match s with
       | EmptyString => None
       | String _ s' => find_from_aux sub s' (S i)
       end.

Definition py_find (s sub : string) (start : nat) : Z :=
  match find_from_aux sub (substring start (String.length s) s) start with
  | Some i => Z.of_nat i
  | None => (-1)%Z
  end.

(** Python slice [s[a:b]] with negative indices counted from the end. *)
Definition py_slice (s : string) (a b : Z) : string :=
  let n := Z.of_nat (String.length s) in
  let norm i := if (i <? 0)%Z then Z.max 0 (n + i) else Z.min i n in
  let a' := norm a in
  let b' := norm b in
  if (b' <=? a')%Z then "" else substring (Z.to_nat a') (Z.to_nat (b' - a')) s.

(** The fields of [TripRequest] the agents below read; dates are day
    numbers. *)
Record TripRequest := mkTripRequest {
  duration_days : option Z;
  start_date : option Z;
  end_date : option Z;
  travelers : Z;
  selected_accommodation_id : option string
}.

Record Accommodation := mkAccommodation {
  acc_id : string;
  title : string;
  description : string;
  location : Q * Q;
  address : string;
  price_per_night : Q;
  total_price : Q;
  amenities : list string;
  rating : option Q;
  review_count : option Z;
  images : list string;
  booking_url : option string;
  source : string
}.

(** ** Number syntax of [float()] and of pydantic's lax coercions *)

(** The digits that follow a first digit; with [us], a single underscore
    may separate two digits (Python's number syntax). *)
Fixpoint digit_run (us : bool) (l : list ascii) : list nat * list ascii :=
  match l with
  | [] => ([], [])
  | c :: l' =>
      match digit_value c with
      | Some d => let '(ds, r) := digit_run us l' in (d :: ds, r)
      | None =>
          if us && Ascii.eqb c "_" then
            match l' with
            | c2 :: l'' =>
                match digit_value c2 with
                | Some d => let '(ds, r) := digit_run us l'' in (d :: ds, r)
                | None => ([], l)
                end
            | [] => ([], l)
            end
          else ([], l)
      end
  end.

(** A digit part (empty when the text does not start with a digit) and the
    rest. *)
Definition digit_part (us : bool) (l : list ascii) : list nat * list ascii :=
  match l with
  | c :: l' =>
      match digit_value c with
      | Some d => let '(ds, r) := digit_run us l' in (d :: ds, r)
      | None => ([], l)
      end
  | [] => ([], [])
  end.

Definition digits_value (ds : list nat) : Z :=
  fold_left (fun acc d => acc * 10 + Z.of_nat d)%Z ds 0%Z.

(** [m * 10 ^ e] *)
Definition scale10 (m e : Z) : Q :=
  if (0 <=? e)%Z then inject_Z (m * 10 ^ e)
  else inject_Z m / inject_Z (10 ^ (- e)).

Definition take_sign (l : list ascii) : bool * list ascii :=
  match l with
  | "-"%char :: t => (true, t)
  | "+"%char :: t => (false, t)
  | _ => (false, l)
  end.

(** An unsigned decimal number [digits[.digits][(e|E)[+|-]digits]] with at
    least one digit before or after the point (which may come first or
    last): its value and the rest of the text. *)
Definition decimal_number (us : bool) (l : list ascii) : option (Q * list ascii) :=
  let '(ip, l1) := digit_part us l in
  let '(fp, l2) := match l1 with
                   | "."%char :: l' => digit_part us l'
                   | _ => ([], l1)
                   end in
  match app ip fp with
  | [] => None
  | mantissa =>
      let exponent :=
        match l2 with
        | c :: l' =>
            if Ascii.eqb c "e" || Ascii.eqb c "E" then
              let '(neg, l3) := take_sign l' in
              match digit_part us l3 with
              | ([], _) => None
              | (ed, l4) =>
                  Some ((if neg then - digits_value ed else digits_value ed)%Z, l4)
              end
            else Some (0%Z, l2)
        | [] => Some (0%Z, [])
        end in
      match exponent with
      | Some (e, rest) =>
          Some (scale10 (digits_value mantissa) (e - Z.of_nat (length fp)), rest)
      | None => None
      end
  end.

(** A float literal is a number or one of the non-finite values. *)
Inductive float_lit : Type :=
  | FLNum (q : Q)
  | FLNonFinite.

(** A sign, then [inf], [infinity] or [nan] in any case, or a decimal
    number; nothing may follow. With [us], Python's [float(str)] syntax;
    without, Rust's [f64::from_str]. *)
Definition float_literal (us : bool) (s : string) : option float_lit :=
  let '(neg, l) := take_sign (list_ascii_of_string s) in
  let w := lower (string_of_list_ascii l) in
  if String.eqb w "inf" || String.eqb w "infinity" || String.eqb w "nan" then
    Some FLNonFinite
  else match decimal_number us l with
       | Some (q, []) => Some (FLNum (if neg then - q else q))
       | _ => None
       end.

(** [float(n)] of an [int] rounds to the nearest double: at [2^1024 - 2^970]
    and above in magnitude it rounds past the largest double and raises
    [OverflowError]. *)
Definition float_overflows (z : Z) : bool := (2 ^ 1024 - 2 ^ 970 <=? Z.abs z)%Z.

(** [float(x)] on a decoded JSON value. A string is stripped and read in
    Python's float syntax. The model reads a double as the rational it
    stands for (no rounding); [inf] and [nan] have no value in [Q] and take
    the [ValueError] path here, as do non-ASCII digits. *)
Definition py_float (v : json) : result Q :=
  match v with
  | JInt z => if float_overflows z then Raise OverflowError else Ok (inject_Z z)
  | JFloat q => Ok q
  | JBool b => Ok (if b then 1 else 0)
  | JStr s =>
      match float_literal true (strip s) with
      | Some (FLNum q) => Ok q
      | _ => Raise ValueError
      end
  | JNull | JArr _ | JObj _ => Raise TypeError
  end.

(** Python truthiness of the optional [duration_days]. *)
Definition truthy_opt (o : option Z) : option Z := truthy_Z o.

(** pydantic's validation of the [Accommodation] fields taken from the
    decoded record (lax mode): [str] fields accept strings only; optional
    fields accept [null]; lists of [str] accept arrays of strings; [float]
    and [int] fields coerce as below. A failure raises [ValidationError], a
    subclass of [ValueError]. *)
Definition as_str (v : json) : result string :=
  match v with JStr s => Ok s | _ => Raise ValueError end.
Definition as_opt_str (v : json) : result (option string) :=
  match v with JNull => Ok None | JStr s => Ok (Some s) | _ => Raise ValueError end.

(** pydantic-core's [strip_underscores]: a text containing an underscore,
    with none first or last and no two in a row, loses its underscores. *)
Definition strip_underscores (s : string) : option string :=
  let l := list_ascii_of_string s in
  match l, rev l with
  | c :: _, c' :: _ =>
      if Ascii.eqb c "_" || Ascii.eqb c' "_" || negb (contains "_" s)
         || contains "__" s
      then None
      else Some (string_of_list_ascii (filter (fun x => negb (Ascii.eqb x "_")) l))
  | _, _ => None
  end.

(** [float] field: a double, a boolean, an [int] convertible to a double, or
    a string: trimmed and read by Rust's [f64::from_str], or else read
    without its underscores. As in [py_float], [inf] and [nan] are outside
    the model and take the error path. *)
Definition as_opt_float (v : json) : result (option Q) :=
  match v with
  | JNull => Ok None
  | JInt z => if float_overflows z then Raise ValueError else Ok (Some (inject_Z z))
  | JFloat q => Ok (Some q)
  | JBool b => Ok (Some (if b then 1 else 0))
  | JStr s =>
      match float_literal false (rust_trim s) with
      | Some (FLNum q) => Ok (Some q)
      | Some FLNonFinite => Raise ValueError
      | None =>
          match option_map (float_literal false) (strip_underscores s) with
          | Some (Some (FLNum q)) => Ok (Some q)
          | _ => Raise ValueError
          end
      end
  | JArr _ | JObj _ => Raise ValueError
  end.

Definition is_digit (c : ascii) : bool :=
  match digit_value c with Some _ => true | None => false end.

Definition digits_of (l : list ascii) : list nat :=
  map (fun c => match digit_value c with Some d => d | None => O end) l.

(** Rust's [i64::from_str] on a text shorter than 19 bytes: [[+|-]digits]. *)
Definition parse_i64 (s : string) : option Z :=
  let '(neg, l) := take_sign (list_ascii_of_string s) in
  match l with
  | [] => None
  | _ => if forallb is_digit l
         then let v := digits_value (digits_of l) in Some (if neg then - v else v)%Z
         else None
  end.

(** num-bigint's [BigInt::from_str]: an optional [-] not followed by [+],
    then an optional [+] not followed by [+], then digits and underscores,
    not starting with an underscore; the underscores are ignored. *)
Definition parse_bigint (s : string) : option Z :=
  let l := list_ascii_of_string s in
  let '(neg, l1) := match l with
                    | "-"%char :: t => match t with
                                       | "+"%char :: _ => (true, l)
                                       | _ => (true, t)
                                       end
                    | _ => (false, l)
                    end in
  let l2 := match l1 with
            | "+"%char :: t => match t with "+"%char :: _ => l1 | _ => t end
            | _ => l1
            end in
  match l2 with
  | [] => None
  | "_"%char :: _ => None
  | _ =>
      if forallb (fun c => is_digit c || Ascii.eqb c "_") l2
      then let v := digits_value (digits_of (filter is_digit l2)) in
           Some (if neg then - v else v)%Z
      else None
  end.

(** pydantic-core's [_parse_str]: [len] is the length of the trimmed text. *)
Definition parse_int_str (s : string) (len : nat) : option Z :=
  if Nat.ltb len 19 then parse_i64 s else parse_bigint s.

(** pydantic-core's [strip_decimal_zeros]: the text before the last [.] when
    only zeros follow it. *)
Fixpoint strip_decimal_zeros_rev (r : list ascii) : option (list ascii) :=
  match r with
  | "0"%char :: r' => strip_decimal_zeros_rev r'
  | "."%char :: r' => Some r'
  | _ => None
  end.
Definition strip_decimal_zeros (s : string) : option string :=
  option_map (fun r => string_of_list_ascii (rev r))
             (strip_decimal_zeros_rev (rev (list_ascii_of_string s))).

(** pydantic-core's [str_as_int]. *)
Definition str_as_int (s : string) : result Z :=
  let t := rust_trim s in
  let len := String.length t in
  if Nat.ltb 4300 len then Raise ValueError
  else match parse_int_str t len with
       | Some z => Ok z
       | None =>
           match strip_decimal_zeros t with
           | Some t' => match parse_int_str t' len with
                        | Some z => Ok z
                        | None => Raise ValueError
                        end
           | None =>
               match strip_underscores t with
               | Some t' => match parse_int_str t' len with
                            | Some z => Ok z
                            | None => Raise ValueError
                            end
               | None => Raise ValueError
               end
           end
       end.

(** pydantic-core's [float_as_int]: an integral double strictly between
    [-2^63] and [2^63]. *)
Definition float_as_int (q : Q) : result Z :=
  if negb (Z.eqb (Z.modulo (Qnum q) (Zpos (Qden q))) 0) then Raise ValueError
  else let z := (Qnum q / Zpos (Qden q))%Z in
       if ((- 2 ^ 63 <? z) && (z <? 2 ^ 63))%Z then Ok z else Raise ValueError.

(** [int] field: an integer, a boolean, an integral double, or a numeric
    string. *)
Definition as_opt_int (v : json) : result (option Z) :=
  match v with
  | JNull => Ok None
  | JInt z => Ok (Some z)
  | JBool b => Ok (Some (if b then 1 else 0)%Z)
  | JFloat q => z <- float_as_int q ;; Ok (Some z)
  | JStr s => z <- str_as_int s ;; Ok (Some z)
  | JArr _ | JObj _ => Raise ValueError
  end.
Fixpoint as_str_list (l : list json) : result (list string) :=
  match l with
  | [] => Ok []
  | JStr s :: l' => r <- as_str_list l' ;; Ok (s :: r)
  | _ :: _ => Raise ValueError
  end.
Definition as_list_str (v : json) : result (list string) :=
  match v with JArr l => as_str_list l | _ => Raise ValueError end.

(** [str(n)] for a natural number. *)
Fixpoint nat_to_string_aux (fuel n : nat) (acc : string) : string :=
  match fuel with
  | O => acc
  | S f =>
      let acc' := String (ascii_of_nat (48 + Nat.modulo n 10)) acc in
      if Nat.ltb n 10 then acc' else nat_to_string_aux f (Nat.div n 10) acc'
  end.
Definition nat_to_string (n : nat) : string := nat_to_string_aux (S n) n "".

(** [StayAgent._create_accommodation_from_dict]: [Ok None] is the caught
    error path ([KeyError], [ValueError], [TypeError]); any other exception
    escapes. A value that is not a [dict] has no [.get]: AttributeError. *)
Definition create_accommodation_from_dict (data : json) (request : TripRequest)
    : result (option Accommodation) :=
  match data with
  | JObj d =>
      let body : result Accommodation :=
        price_per_night <- py_float (dict_get d "price_per_night" (dict_get d "price" (JInt 0))) ;;
        let duration :=
          match truthy_opt (duration_days request) with
          | Some n => n
          | None => match start_date request, end_date request with
                    | Some s, Some e => (e - s)%Z
                    | _, _ => 1%Z
                    end
          end in
        let total_price := (price_per_night * inject_Z duration)%Q in
        location <- (match dict_lookup "location" d with
                     | Some (JObj l) =>
                         lat <- py_float (dict_get l "lat" (JFloat 0)) ;;
                         lng <- py_float (dict_get l "lng" (JFloat 0)) ;;
                         Ok (lat, lng)
                     | _ => Ok (0, 0)
                     end) ;;
        id <- as_str (dict_get d "id" (JStr ("acc_" ++ nat_to_string (dict_len d)))) ;;
        title <- as_str (dict_get d "title" (dict_get d "name" (JStr "Unknown Property"))) ;;
        description <- as_str (dict_get d "description" (JStr "")) ;;
        address <- as_str (dict_get d "address" (JStr "")) ;;
        amenities <- as_list_str (dict_get d "amenities" (JArr [])) ;;
        rating <- as_opt_float (dict_get d "rating" JNull) ;;
        review_count <- as_opt_int (dict_get d "review_count" JNull) ;;
        images <- as_list_str (dict_get d "images" (JArr [])) ;;
        booking_url <- as_opt_str (dict_get d "booking_url" (dict_get d "url" JNull)) ;;
        source <- as_str (dict_get d "source" (JStr "airbnb")) ;;
        Ok (mkAccommodation id title description location address price_per_night
              total_price amenities rating review_count images booking_url source) in
      match body with
      | Ok a => Ok (Some a)
      | Raise KeyError | Raise ValueError | Raise TypeError => Ok None
      | Raise e => Raise e
      end
  | _ => Raise AttributeError
  end.

(** [text.split("\n")] *)
Fixpoint split_lines_aux (s : string) (cur : list ascii) : list string :=
  match s with
  | EmptyString => [string_of_list_ascii (rev cur)]
  | String c s' =>
      if Ascii.eqb c newline then string_of_list_ascii (rev cur) :: split_lines_aux s' []
      else split_lines_aux s' (c :: cur)
  end.
Definition split_lines (s : string) : list string := split_lines_aux s [].

(** The first group of [re.findall(r'\$?(\d+(?:\.\d{2})?)', line)], read
    with [float] (ASCII digits). The [\$?] prefix does not change the
    captured text: the match captures the digit run that starts at the
    first digit of the line, followed by a point and exactly two digits
    when present. *)
Fixpoint first_price (line : string) : option Q :=
  match line with
  | EmptyString => None
  | String c s' =>
      if is_digit c then
        let '(ip, _, rest) := take_digits line 0%Z 0 in
        match rest with
        | String "." (String d1 (String d2 _)) =>
            match digit_value d1, digit_value d2 with
            | Some a, Some b =>
                Some (inject_Z ip + inject_Z (Z.of_nat (10 * a + b)) / 100)%Q
            | _, _ => Some (inject_Z ip)
            end
        | _ => Some (inject_Z ip)
        end
      else first_price s'
  end.

Fixpoint scan_price (lines : list string) : Q :=
  match lines with
  | [] => 0
  | line :: ls =>
      if contains "$" line || contains "USD" line || contains "price" (lower line) then
        match first_price line with
        | Some p => p
        | None => scan_price ls
        end
      else scan_price ls
  end.

(** [StayAgent._extract_from_text]: always returns a record. *)
Definition extract_from_text (text : string) (request : TripRequest) : option Accommodation :=
  let lines := split_lines text in
  let price_per_night := scan_price lines in
  let duration := match truthy_opt (duration_days request) with Some n => n | None => 1%Z end in
  Some (mkAccommodation "acc_text_1" "Accommodation Recommendation" (substring 0 500 text)
          (0, 0) "" price_per_night (price_per_night * inject_Z duration)%Q
          [] None None [] None "unknown").

(** [for item in v]: a list yields its elements, a dict its (distinct)
    keys, a string its characters; anything else is not iterable. *)
Definition py_iter (v : json) : result (list json) :=
  match v with
  | JArr l => Ok l
  | JObj d => Ok (map JStr (nodup string_dec (map fst d)))
  | JStr s => Ok (map (fun c => JStr (String c EmptyString)) (list_ascii_of_string s))
  | _ => Raise TypeError
  end.

(** The exceptions caught by [_parse_results]'s [except] clause. *)
Definition parse_caught (e : exc) : bool :=
  match e with JSONDecodeError | KeyError | ValueError => true | _ => false end.

Section Extraction.
(** The record constructor [self._create_accommodation_from_dict]: [Ok (Some
    a)] when it returns a record, [Ok None] when it returns [None], [Raise e]
    when it raises. *)
Variable create : json -> TripRequest -> result (option Accommodation).

(** The loop [for item in ...: acc = create(item, request); if acc:
    accommodations.append(acc)]: the records appended and the exception
    raised, if any. *)
Fixpoint append_items_with (items : list json) (request : TripRequest)
    (acc : list Accommodation) : list Accommodation * option exc :=
  match items with
  | [] => (acc, None)
  | item :: rest =>
      match create item request with
      | Ok (Some a) => append_items_with rest request (acc ++ [a])
      | Ok None => append_items_with rest request acc
      | Raise e => (acc, Some e)
      end
  end.

(** The decoder [json.loads]. *)
Variable loads : string -> result json.

(** The body of the [try] block: the records appended to [accommodations]
    and the exception raised, if any. *)
Definition parse_try_with (output : string) (request : TripRequest)
    : list Accommodation * option exc :=
  if contains "```json" output then
    let json_start := (py_find output "```json" 0 + 7)%Z in
    let json_end := py_find output "```" (Z.to_nat json_start) in
    let json_str := strip (py_slice output json_start json_end) in
    match loads json_str with
    | Raise e => ([], Some e)
    | Ok data =>
        match data with
        | JArr l => append_items_with l request []
        | JObj d =>
            match dict_lookup "accommodations" d with
            | Some v =>
                match py_iter v with
                | Ok items => append_items_with items request []
                | Raise e => ([], Some e)
                end
            | None => ([], None)
            end
        | _ => ([], None)
        end
    end
  else ([], None).

(** [StayAgent._parse_results] *)
Definition parse_results_with (output : string) (request : TripRequest)
    : result (list Accommodation) :=
  accommodations <-
    (let '(accommodations, raised) := parse_try_with output request in
     match raised with
     | Some e => if parse_caught e then Ok accommodations else Raise e
     | None => Ok accommodations
     end) ;;
  match accommodations with
  | [] => match extract_from_text output request with
          | Some a => Ok [a]
          | None => Ok []
          end
  | _ => Ok accommodations
  end.
End Extraction.

(** The extraction with the stay agent's [_create_accommodation_from_dict]. *)
Definition append_items := append_items_with create_accommodation_from_dict.
Definition parse_try := parse_try_with create_accommodation_from_dict.
Definition parse_results := parse_results_with create_accommodation_from_dict.


Definition dq : string := String (ascii_of_nat 34) EmptyString.
Definition quoted (s : string) : string := dq ++ s ++ dq.

(** A fenced block: the fence line, the body and the closing fence. *)
Definition fence (body : string) : string :=
  "```json" ++ String newline (body ++ String newline "```").

Definition req0 : TripRequest := mkTripRequest (Some 3%Z) None None 1 None.

(** [[1]] *)
Definition body_int_list : string := "[1]".
(** [[{"price": 100}]] *)
Definition body_one_record : string := "[{" ++ quoted "price" ++ ": 100}]".

(** ** Budgets ([BudgetAgent.process], [PlannerAgent._calculate_budget]) *)

Record BudgetBreakdown := mkBudgetBreakdown {
  accommodation : Q;
  transportation : Q;
  experiences : Q;
  meals : Q;
  miscellaneous : Q;
  total : Q
}.

(** The fields of [Transportation] the cost helper reads. *)
Record TransportFare := mkTransportFare {
  fare_recommended : bool;
  price_per_person : option Q;
  fare_price : Q
}.

(** The fields of [Restaurant] the budget reads. *)
Record Restaurant := mkRestaurant {
  average_price_per_person : option Q;
  price_range : string
}.

(** The field of [Experience] the budget reads. *)
Record Experience := mkExperience {
  experience_price : option Q
}.

(** Python's [round(x, 2)]: to the nearest cent, ties to even. *)
Definition round_half_even (x : Q) : Z :=
  let f := Qfloor x in
  let r := (x - inject_Z f)%Q in
  if Qlt_bool r (1#2) then f
  else if Qlt_bool (1#2) r then (f + 1)%Z
  else if Z.even f then f else (f + 1)%Z.

Definition round2 (x : Q) : Q := Qmake (round_half_even (x * 100)) 100.

Definition upper_ascii (c : ascii) : ascii :=
  let n := nat_of_ascii c in
  if Nat.leb 97 n && Nat.leb n 122 then ascii_of_nat (n - 32)%nat else c.

Fixpoint upper (s : string) : string :=
  match s with
  | EmptyString => EmptyString
  | String c s' => String (upper_ascii c) (upper s')
  end.

Definition Qsum (l : list Q) : Q := fold_left Qplus l 0.

(** Stage outputs as the budget reads them: [None] is a missing or empty
    result dict, [Some l] the list under its key. *)
Definition calculate_accommodation_cost (stay_results : option (list Accommodation))
    (request : TripRequest) (duration : Z) : Q :=
  let per_acc a := if Qlt_bool 0 (total_price a) then total_price a
                   else (price_per_night a * inject_Z duration)%Q in
  match stay_results with
  | None | Some [] => 0
  | Some accommodations =>
      let average :=
        (Qsum (map per_acc accommodations) / inject_Z (Z.of_nat (length accommodations)))%Q in
      match selected_accommodation_id request with
      | Some sel =>
          if String.eqb sel "" then average
          else match find (fun a => String.eqb (acc_id a) sel) accommodations with
               | Some a => per_acc a
               | None => average
               end
      | None => average
      end
  end.

(** The loop of [_calculate_transportation_cost]: the first recommended
    option, else the first option of least price ([None] price = inf). *)
Fixpoint select_transport (l : list TransportFare) (cheapest : option (Q * TransportFare))
    : option TransportFare :=
  match l with
  | [] => option_map snd cheapest
  | t :: rest =>
      if fare_recommended t then Some t
      else
        let price := match truthy_Q (price_per_person t) with
                     | Some p => p | None => fare_price t end in
        let cheapest' := match cheapest with
                         | None => Some (price, t)
                         | Some (cp, _) => if Qlt_bool price cp then Some (price, t) else cheapest
                         end in
        select_transport rest cheapest'
  end.


Definition calculate_transportation_cost (travel_results : option (list TransportFare))
    (travelers : Z) : Q :=
  match travel_results with
  | None | Some [] => 0
  | Some transportation =>
      match select_transport transportation None with
      | None => 0
      | Some selected =>
          match truthy_Q (price_per_person selected) with
          | Some p => (p * inject_Z travelers * 2)%Q
          | None => (fare_price selected * inject_Z travelers * 2)%Q
          end
      end
  end.

Definition estimate_price_from_range (price_range : string) : Q :=
  let p := upper (strip price_range) in
  if String.eqb p "$" then 15
  else if String.eqb p "$$" then 35
  else if String.eqb p "$$$" then 65
  else if String.eqb p "$$$$" then 100
  else 50.

Definition calculate_meals_cost (restaurant_results : option (list Restaurant))
    (duration travelers : Z) : Q :=
  match restaurant_results with
  | None | Some [] => (50 * inject_Z duration * inject_Z travelers)%Q
  | Some restaurants =>
      let price r := match truthy_Q (average_price_per_person r) with
                     | Some p => p
                     | None => estimate_price_from_range (price_range r)
                     end in
      let avg_price_per_meal :=
        (Qsum (map price restaurants) / inject_Z (Z.of_nat (length restaurants)))%Q in
      let breakfast_cost := (avg_price_per_meal * (6#10))%Q in
      let lunch_dinner_cost := (avg_price_per_meal * 2)%Q in
      let daily_meal_cost := ((breakfast_cost + lunch_dinner_cost) * inject_Z travelers)%Q in
      (daily_meal_cost * inject_Z duration)%Q
  end.

Definition calculate_experiences_cost (experience_results : option (list Experience))
    (travelers : Z) : Q :=
  match experience_results with
  | None | Some [] => 0
  | Some exps =>
      Qsum (map (fun e => match truthy_Q (experience_price e) with
                          | Some p => (p * inject_Z travelers)%Q
                          | None => 0
                          end) exps)
  end.

(** [BudgetAgent.process] (the [budget] entry of its result). *)
Definition budget_process (request : TripRequest)
    (stay_results : option (list Accommodation))
    (travel_results : option (list TransportFare))
    (experience_results : option (list Experience))
    (restaurant_results : option (list Restaurant)) : BudgetBreakdown :=
  let duration := match truthy_Z (duration_days request) with Some d => d | None => 5%Z end in
  let travelers := if Z.eqb (travelers request) 0 then 1%Z else travelers request in
  let accommodation_cost := calculate_accommodation_cost stay_results request duration in
  let transportation_cost := calculate_transportation_cost travel_results travelers in
  let meals_cost := calculate_meals_cost restaurant_results duration travelers in
  let experiences_cost := calculate_experiences_cost experience_results travelers in
  let subtotal := (accommodation_cost + transportation_cost + meals_cost + experiences_cost)%Q in
  let miscellaneous_cost := (subtotal * (12#100))%Q in
  let total := (subtotal + miscellaneous_cost)%Q in
  mkBudgetBreakdown (round2 accommodation_cost) (round2 transportation_cost)
    (round2 experiences_cost) (round2 meals_cost) (round2 miscellaneous_cost) (round2 total).

(** [PlannerAgent._calculate_budget]: the stage's breakdown when there is
    one, else the fallback estimate. *)
Definition calculate_budget (accommodation : option Accommodation)
    (restaurants : list Restaurant) (duration : Z) (request : TripRequest)
    (budget_results : option BudgetBreakdown) : BudgetBreakdown :=
  match budget_results with
  | Some budget => budget
  | None =>
      let accommodation_cost :=
        match accommodation with
        | Some a => if Qeq_bool (total_price a) 0
                    then (price_per_night a * inject_Z duration)%Q
                    else total_price a
        | None => 0
        end in
      let meal_cost_per_day :=
        match restaurants with
        | [] => 50
        | _ =>
            let top := firstn 5 restaurants in
            let total_price :=
              Qsum (map (fun r => match truthy_Q (average_price_per_person r) with
                                  | Some p => p | None => 30 end) top) in
            (total_price / inject_Z (Z.of_nat (length top)) * 2)%Q
        end in
      let meals_cost := (meal_cost_per_day * inject_Z duration * inject_Z (travelers request))%Q in
      let subtotal := (accommodation_cost + meals_cost)%Q in
      let miscellaneous := (subtotal * (1#10))%Q in
      mkBudgetBreakdown accommodation_cost 0 0 meals_cost miscellaneous
        (accommodation_cost + meals_cost + miscellaneous)%Q
  end.

Definition component_sum (b : BudgetBreakdown) : Q :=
  (accommodation b + transportation b + experiences b + meals b + miscellaneous b)%Q.

(** Sample budget inputs: one lodging at 100.004 in total, one activity at
    20.004, no transport and no restaurants (meals estimated at 50 a day). *)
Definition loft : Accommodation :=
  mkAccommodation "acc_1" "Loft" "" (0, 0) "" 0 (100004#1000) [] None None [] None "airbnb".
Definition request_default : TripRequest := mkTripRequest None None None 1 None.

(** ** The planning pipeline ([TripOrchestrator], [PlannerAgent.process]) *)

Module Pipeline.

Record DayItinerary := mkDayItinerary {
  day : Z;
  date : Z;
  activities : list json;
  meals : list json;
  notes : option string
}.

Record TripPlan := mkTripPlan {
  request : TripRequest;
  accommodations : list Accommodation;
  selected_accommodation : option Accommodation;
  restaurants : list Restaurant;
  transportation : list TransportFare;
  experiences : list Experience;
  itinerary : list DayItinerary;
  budget : BudgetBreakdown
}.





(** [PlannerAgent._get_selected_accommodation] *)
Definition get_selected_accommodation (request : TripRequest)
    (stay_results : option (list Accommodation)) : option Accommodation :=
  let first l := match l with a :: _ => Some a | [] => None end in
  match stay_results, selected_accommodation_id request with
  | Some accs, Some sel =>
      if String.eqb sel "" then first accs
      else match find (fun a => String.eqb (acc_id a) sel) accs with
           | Some a => Some a
           | None => first accs
           end
  | Some accs, None => first accs
  | None, _ => None
  end.





Section Planner.
(** The [try] block of [_parse_itinerary] (fence search, [json.loads], and
    [_create_day_itinerary] on each entry of ["itinerary"]): the entries it
    builds, or the exception it raises. *)
Variable itinerary_try : string -> Z -> Z -> result (list DayItinerary).



End Planner.



End Pipeline.

(** No candidate is marked yet. *)
Definition unmarked (l : list Transportation) : Prop :=
  Forall (fun t => recommended t = false) l.

(** ** Destination from the lodging results ([TravelAgent._extract_destination_from_stay]) *)

(** [s.split(",")] *)
Fixpoint split_commas_aux (s : string) (cur : list ascii) : list string :=
  match s with
  | EmptyString => [string_of_list_ascii (rev cur)]
  | String c s' =>
      if Ascii.eqb c "," then string_of_list_ascii (rev cur) :: split_commas_aux s' []
      else split_commas_aux s' (c :: cur)
  end.
Definition split_commas (s : string) : list string := split_commas_aux s [].

(** The lodging results are [None] when the dict is missing, empty or has
    no ["accommodations"] key. *)
Definition extract_destination_from_stay (stay_results : option (list Accommodation))
    : option string :=
  match stay_results with
  | Some (first_acc :: _) =>
      if String.eqb (address first_acc) "" then None
      else
        let parts := split_commas (address first_acc) in
        Some (strip (last parts ""))
  | _ => None
  end.

(** ** Itinerary storage ([ItineraryService] over the SQLite tables) *)

(** A row of [itineraries]: primary key [(user_id, trip_id)]. *)
Record ItineraryRow := mkItineraryRow {
  row_user_id : string;
  row_trip_id : string;
  row_itinerary : string
}.

(** A row of [itinerary_versions]: primary key
    [(user_id, trip_id, version_number)]. *)
Record VersionRow := mkVersionRow {
  ver_user_id : string;
  ver_trip_id : string;
  ver_number : Z;
  ver_modified_by : string;
  ver_itinerary : string;
  ver_created_at : string
}.

(** The two tables, rows in storage order. *)
Record Db := mkDb {
  itinerary_rows : list ItineraryRow;
  version_rows : list VersionRow
}.

(** Errors of the storage layer: [sqlite3.IntegrityError] on a primary-key
    conflict, the [ValueError] "Itinerary not found", and an error raised
    while decoding a stored plan. *)
Inductive db_exc : Type :=
  | IntegrityError
  | ItineraryNotFound
  | DecodeError (e : exc).

Inductive db_result (A : Type) : Type :=
  | DbOk (a : A)
  | DbRaise (e : db_exc).
Arguments DbOk {A} a.
Arguments DbRaise {A} e.

Definition is_trip (u t : string) (r : ItineraryRow) : bool :=
  String.eqb (row_user_id r) u && String.eqb (row_trip_id r) t.

Definition is_trip_version (u t : string) (r : VersionRow) : bool :=
  String.eqb (ver_user_id r) u && String.eqb (ver_trip_id r) t.

(** [SELECT ... FROM itineraries WHERE user_id = ? AND trip_id = ?] with
    [fetchone()] *)
Definition select_itinerary (db : Db) (u t : string) : option ItineraryRow :=
  find (is_trip u t) (itinerary_rows db).

(** [SELECT MAX(version_number) ... WHERE user_id = ? AND trip_id = ?]:
    [NULL] when there is no row. *)
Definition select_max_version (db : Db) (u t : string) : option Z :=
  fold_left (fun acc r => if is_trip_version u t r then
                            Some (match acc with Some m => Z.max m (ver_number r)
                                                | None => ver_number r end)
                          else acc)
            (version_rows db) None.

(** [UPDATE itineraries SET itinerary = ? WHERE user_id = ? AND trip_id = ?] *)
Definition update_itinerary_row (db : Db) (u t json : string) : Db :=
  mkDb (map (fun r => if is_trip u t r then mkItineraryRow u t json else r) (itinerary_rows db))
       (version_rows db).

(** [INSERT INTO itineraries ...] *)
Definition insert_itinerary_row (db : Db) (r : ItineraryRow) : db_result Db :=
  if existsb (is_trip (row_user_id r) (row_trip_id r)) (itinerary_rows db)
  then DbRaise IntegrityError
  else DbOk (mkDb (itinerary_rows db ++ [r])%list (version_rows db)).

(** [INSERT INTO itinerary_versions ...]. The connections of
    [get_db_connection] do not run [PRAGMA foreign_keys = ON], so SQLite
    does not enforce the foreign key to [itineraries] there. *)
Definition insert_version_row (db : Db) (r : VersionRow) : db_result Db :=
  if existsb (fun r' => is_trip_version (ver_user_id r) (ver_trip_id r) r'
                        && Z.eqb (ver_number r') (ver_number r)) (version_rows db)
  then DbRaise IntegrityError
  else DbOk (mkDb (itinerary_rows db) (version_rows db ++ [r])%list).

(** [(result["max_version"] or 0) + 1] *)
Definition next_version (db : Db) (u t : string) : Z :=
  (match truthy_Z (select_max_version db u t) with Some m => m | None => 0 end + 1)%Z.

(** [ORDER BY version_number ASC] (insertion sort; equal keys keep their
    storage order). *)
Fixpoint insert_by_number (r : VersionRow) (l : list VersionRow) : list VersionRow :=
  match l with
  | [] => [r]
  | r' :: l' => if (ver_number r <=? ver_number r')%Z then r :: r' :: l'
                else r' :: insert_by_number r l'
  end.
Definition sort_by_number (l : list VersionRow) : list VersionRow :=
  fold_right insert_by_number [] l.

(** [ItineraryService.get_itinerary_versions]: [(version, modified_by,
    created_at)] in ascending version order. *)
Definition get_itinerary_versions (db : Db) (u t : string) : list (Z * string * string) :=
  map (fun r => (ver_number r, ver_modified_by r, ver_created_at r))
      (sort_by_number (filter (is_trip_version u t) (version_rows db))).

Section Storage.
(** The plan type, [json.dumps(plan.model_dump(), default=str)], the
    decoding of [json.loads(...)] into a plan (which may raise), and the
    assignment [plan.trip_id = trip_id]. *)
Variable Plan : Type.
Variable dumps : Plan -> string.
Variable loads : string -> result Plan.
Variable with_trip_id : Plan -> string -> Plan.

(** [ItineraryService._save_itinerary]: on any error the transaction is
    rolled back (the database is left as it was) and the error re-raised. *)
Definition save_itinerary (db : Db) (u t : string) (plan : Plan) (now : string)
    : db_result Db :=
  let itinerary_json := dumps plan in
  match select_itinerary db u t with
  | Some _ =>
      let new_version := next_version db u t in
      let db1 := update_itinerary_row db u t itinerary_json in
      insert_version_row db1 (mkVersionRow u t new_version u itinerary_json now)
  | None =>
      match insert_itinerary_row db (mkItineraryRow u t itinerary_json) with
      | DbOk db1 => insert_version_row db1 (mkVersionRow u t 1 u itinerary_json now)
      | DbRaise e => DbRaise e
      end
  end.

(** [ItineraryService._save_itinerary_with_modifier] *)
Definition save_itinerary_with_modifier_db (db : Db) (u t : string) (plan : Plan)
    (modified_by now : string) : db_result Db :=
  let itinerary_json := dumps plan in
  let new_version := next_version db u t in
  let db1 := update_itinerary_row db u t itinerary_json in
  insert_version_row db1 (mkVersionRow u t new_version modified_by itinerary_json now).

(** [ItineraryService._load_itinerary] (and [get_itinerary], which calls it). *)
Definition load_itinerary (db : Db) (u t : string) (version : option Z)
    : db_result (option Plan) :=
  let row :=
    match version with
    | None => option_map row_itinerary (select_itinerary db u t)
    | Some v => option_map ver_itinerary
                  (find (fun r => is_trip_version u t r && Z.eqb (ver_number r) v)
                        (version_rows db))
    end in
  match row with
  | None => DbOk None
  | Some json =>
      match loads json with
      | Ok p => DbOk (Some (with_trip_id p t))
      | Raise e => DbRaise (DecodeError e)
      end
  end.

(** [ItineraryService._update_itinerary] *)
Definition update_itinerary (db : Db) (u t : string) (plan : Plan) (now : string)
    : db_result Db :=
  match select_itinerary db u t with
  | None => DbRaise ItineraryNotFound
  | Some _ => save_itinerary db u t plan now
  end.
End Storage.

(** The version numbers stored for one trip, in storage order. *)
Definition trip_version_numbers (db : Db) (u t : string) : list Z :=
  map ver_number (filter (is_trip_version u t) (version_rows db)).

(** ** The profile cache ([TripOrchestrator.register_user_profile],
    [get_user_profile]) *)

Section Profiles.
Variable Profile : Type.
Variable profile_user_id : Profile -> string.
(** [UserService().to_user_profile(user_id)]: a profile, none, or an
    exception. *)
Variable to_user_profile : string -> result (option Profile).

(** [self._user_profiles[k] = v] on a dict kept as an association list:
    an existing key keeps its place. *)
Fixpoint dict_set (d : list (string * Profile)) (k : string) (v : Profile)
    : list (string * Profile) :=
  match d with
  | [] => [(k, v)]
  | (k', v') :: d' => if String.eqb k' k then (k, v) :: d' else (k', v') :: dict_set d' k v
  end.

Definition dict_find (d : list (string * Profile)) (k : string) : option Profile :=
  option_map snd (find (fun p => String.eqb (fst p) k) d).

Definition register_user_profile (cache : list (string * Profile)) (profile : Profile)
    : list (string * Profile) :=
  dict_set cache (profile_user_id profile) profile.

(** Returns the profile and the cache afterwards; any exception of the
    database lookup is caught and gives [None]. *)
Definition get_user_profile (cache : list (string * Profile)) (user_id : string)
    : option Profile * list (string * Profile) :=
  match dict_find cache user_id with
  | Some p => (Some p, cache)
  | None =>
      match to_user_profile user_id with
      | Ok (Some profile) => (Some profile, dict_set cache user_id profile)
      | Ok None => (None, cache)
      | Raise _ => (None, cache)
      end
  end.
End Profiles.

(** A trip with one stored version, and the same trip after saving a
    second one. *)
Definition storage_db1 : Db :=
  mkDb [mkItineraryRow "u1" "trip1" "v1"] [mkVersionRow "u1" "trip1" 1 "u1" "v1" "t0"].
Definition storage_db2 : Db :=
  mkDb [mkItineraryRow "u1" "trip1" "v2"]
       [mkVersionRow "u1" "trip1" 1 "u1" "v1" "t0"; mkVersionRow "u1" "trip1" 2 "u1" "v2" "t1"].
Definition storage_empty : Db := mkDb [] [].

(** One step of the fold in [select_max_version]. *)
Definition max_step (acc : option Z) (z : Z) : option Z :=
  Some (match acc with Some m => Z.max m z | None => z end).

(* ==================================================================== *)
(** * Proofs *)

(** ** The route selector *)

Lemma Qlt_bool_iff : forall a b, Qlt_bool a b = true <-> a < b.
Proof.
  intros a b; unfold Qlt_bool; rewrite negb_true_iff; split; intro H.
  - apply Qnot_le_lt; intro H'; apply Qle_bool_iff in H'; congruence.
  - destruct (Qle_bool b a) eqn:E; [|reflexivity].
    apply Qle_bool_iff in E; exfalso; apply (Qlt_not_le _ _ H E).
Qed.

Lemma insert_desc_in : forall x y l, In y (insert_desc x l) <-> x = y \/ In y l.
Proof.
  intros x y l; induction l as [|z l IH]; simpl.
  - tauto.
  - destruct (Qle_bool (fst z) (fst x)); simpl; rewrite ?IH; tauto.
Qed.

Lemma sort_desc_in : forall y l, In y (sort_desc l) <-> In y l.
Proof.
  intros y l; induction l as [|x l IH]; simpl; [tauto|].
  rewrite insert_desc_in, IH; tauto.
Qed.

Lemma sort_desc_nil : forall l, sort_desc l = [] -> l = [].
Proof.
  intros [|x l] H; [reflexivity|].
  simpl in H; destruct (sort_desc l) as [|z r]; simpl in H;
    [discriminate|destruct (Qle_bool (fst z) (fst x)); discriminate].
Qed.

(** The head of the descending sort has a maximal score. *)
Lemma insert_desc_head_max : forall x l h r,
  (forall h' r', l = h' :: r' -> forall y, In y l -> fst y <= fst h') ->
  insert_desc x l = h :: r -> forall y, In y (x :: l) -> fst y <= fst h.
Proof.
  intros x l h r Hl Hins y Hy.
  destruct l as [|z l'].
  - simpl in Hins; inversion Hins; subst.
    destruct Hy as [<-|[]]; apply Qle_refl.
  - simpl in Hins.
    destruct (Qle_bool (fst z) (fst x)) eqn:E.
    + inversion Hins; subst h r.
      apply Qle_bool_iff in E.
      destruct Hy as [<-|Hy]; [apply Qle_refl|].
      eapply Qle_trans; [apply (Hl z l' eq_refl y Hy)|exact E].
    + inversion Hins; subst h r.
      assert (Hx : fst x <= fst z).
      { apply Qlt_le_weak, Qnot_le_lt; intro H'.
        apply Qle_bool_iff in H'; congruence. }
      destruct Hy as [<-|Hy]; [exact Hx|exact (Hl z l' eq_refl y Hy)].
Qed.

Lemma sort_desc_head_max : forall l h r,
  sort_desc l = h :: r -> forall y, In y l -> fst y <= fst h.
Proof.
  induction l as [|x l IH]; intros h r Hs y Hy; [destruct Hy|].
  simpl in Hs.
  eapply insert_desc_head_max; [|exact Hs|].
  - intros h' r' E y' Hy'. rewrite sort_desc_in in Hy'.
    exact (IH h' r' E y' Hy').
  - destruct Hy as [<-|Hy]; [left; reflexivity|right; apply sort_desc_in; exact Hy].
Qed.

Lemma in_combine_seq : forall (A : Type) (xs : list A) (k : nat) (a : A) i,
  In (a, i) (combine xs (seq k (length xs))) ->
  (k <= i)%nat /\ nth_error xs (i - k) = Some a.
Proof.
  intros A xs; induction xs as [|x xs IH]; intros k a i H; simpl in H; [destruct H|].
  destruct H as [H|H].
  - inversion H; subst; split; [lia|]. rewrite Nat.sub_diag; reflexivity.
  - destruct (IH (S k) a i H) as [Hle Hn]. split; [lia|].
    replace (i - k)%nat with (S (i - S k)) by lia. exact Hn.
Qed.

Lemma nth_error_in_combine_seq : forall (A : Type) (xs : list A) (k : nat) (a : A) j,
  nth_error xs j = Some a -> In (a, (k + j)%nat) (combine xs (seq k (length xs))).
Proof.
  intros A xs; induction xs as [|x xs IH]; intros k a j H; [destruct j; discriminate|].
  destruct j as [|j]; simpl in H |- *.
  - inversion H; subst; left; f_equal; lia.
  - right. replace (k + S j)%nat with (S k + j)%nat by lia. apply IH; exact H.
Qed.

Lemma count_mark_at : forall l i r,
  unmarked l -> (i < length l)%nat -> count_recommended (mark_at i r l) = 1%nat.
Proof.
  unfold count_recommended.
  induction l as [|t l IH]; intros i r Hu Hi; simpl in Hi; [lia|].
  inversion Hu as [|? ? Ht Hl]; subst.
  destruct i as [|i]; simpl.
  - clear IH Hi Hu. induction Hl as [|t' l' Ht' Hl' IHl]; [reflexivity|].
    simpl; rewrite Ht'; exact IHl.
  - rewrite Ht. apply IH; [exact Hl|lia].
Qed.

Lemma mark_at_marked : forall l i r c,
  unmarked l -> In c (mark_at i r l) -> recommended c = true ->
  exists t, nth_error l i = Some t /\ price c = price t /\
            recommendation_reason c = Some (r t).
Proof.
  induction l as [|t l IH]; intros i r c Hu Hin Hc; [destruct i; destruct Hin|].
  inversion Hu as [|? ? Ht Hl]; subst.
  destruct i as [|i]; simpl in Hin.
  - destruct Hin as [<-|Hin].
    + exists t; simpl; auto.
    + exfalso. rewrite Forall_forall in Hl. rewrite (Hl c Hin) in Hc; discriminate.
  - destruct Hin as [<-|Hin]; [congruence|].
    exact (IH i r c Hl Hin Hc).
Qed.

(** The candidate [mark_recommendations] marks is a top scorer of the list. *)
Lemma mark_recommendations_top : forall priority l c,
  unmarked l -> In c (mark_recommendations priority l) -> recommended c = true ->
  exists t, In t l /\ price c = price t /\
    (forall d, In d l -> calculate_score d priority <= calculate_score t priority).
Proof.
  intros priority l c Hu Hin Hc. unfold mark_recommendations in Hin.
  destruct (sort_desc _) as [|[s i] r] eqn:Hs.
  - exfalso. unfold unmarked in Hu; rewrite Forall_forall in Hu.
    rewrite (Hu c Hin) in Hc; discriminate.
  - destruct (mark_at_marked l i _ c Hu Hin Hc) as [t [Ht [Hp _]]].
    exists t. split; [eapply nth_error_In; exact Ht|split; [exact Hp|]].
    assert (Hsi : In (s, i) (combine (map (fun o => calculate_score o priority) l)
                                    (seq 0 (length l)))).
    { apply sort_desc_in; rewrite Hs; left; reflexivity. }
    rewrite <- (length_map (fun o => calculate_score o priority)) in Hsi.
    destruct (in_combine_seq _ _ _ _ _ Hsi) as [_ Hn].
    rewrite Nat.sub_0_r, nth_error_map, Ht in Hn; simpl in Hn; inversion Hn; subst s.
    intros d Hd. destruct (In_nth_error _ _ Hd) as [j Hj].
    assert (Hdj : In (calculate_score d priority, j)
                     (combine (map (fun o => calculate_score o priority) l)
                              (seq 0 (length (map (fun o => calculate_score o priority) l))))).
    { apply (nth_error_in_combine_seq _ _ 0). rewrite nth_error_map, Hj; reflexivity. }
    rewrite length_map in Hdj.
    exact (sort_desc_head_max _ _ _ Hs _ Hdj).
Qed.

Lemma mark_recommendations_one : forall priority l,
  l <> [] -> unmarked l ->
  count_recommended (mark_recommendations priority l) = 1%nat /\
  (forall c, In c (mark_recommendations priority l) -> recommended c = true ->
     exists r, recommendation_reason c = Some r).
Proof.
  intros priority l Hne Hu. unfold mark_recommendations.
  destruct (sort_desc _) as [|[s i] r] eqn:Hs.
  - exfalso. apply sort_desc_nil in Hs.
    destruct l as [|t l]; [congruence|discriminate].
  - assert (Hsi : In (s, i) (combine (map (fun o => calculate_score o priority) l)
                                    (seq 0 (length (map (fun o => calculate_score o priority) l))))).
    { rewrite length_map. apply sort_desc_in; rewrite Hs; left; reflexivity. }
    destruct (in_combine_seq _ _ _ _ _ Hsi) as [_ Hn].
    rewrite Nat.sub_0_r in Hn.
    assert (Hi : (i < length l)%nat).
    { rewrite <- (length_map (fun o => calculate_score o priority)).
      apply nth_error_Some; congruence. }
    split; [apply count_mark_at; assumption|].
    intros c Hin Hc. destruct (mark_at_marked _ _ _ _ Hu Hin Hc) as [t [_ [_ Hr]]].
    eexists; exact Hr.
Qed.

Lemma Qdiv_1000_le_inv : forall a b, 0 < a -> 0 < b -> 1000 / b <= 1000 / a -> a <= b.
Proof.
  intros a b Ha Hb H. apply Qnot_lt_le; intro Hba.
  apply (Qlt_not_le _ _ (proj1 (Qinv_lt_contravar b a Hb Ha) Hba)) .
  unfold Qdiv in H.
  apply (Qmult_le_l _ _ 1000); [reflexivity|exact H].
Qed.

Lemma Qdiv_1000_pos : forall a, 0 < a -> 0 < 1000 / a.
Proof.
  intros a Ha. unfold Qdiv. apply Qmult_lt_0_compat; [reflexivity|].
  apply Qinv_lt_0_compat; exact Ha.
Qed.

(** C7: with priority ["cheapest"], a candidate the selector marks
    recommended has the smallest price among the candidates whose price is
    strictly positive (and is itself positively priced whenever one is). *)
Theorem cheapest_recommended_min_price : forall l c,
  unmarked l ->
  In c (mark_recommendations "cheapest" l) -> recommended c = true ->
  forall d, In d l -> 0 < price d -> 0 < price c /\ price c <= price d.
Proof.
  intros l c Hu Hin Hc d Hd Hpd.
  destruct (mark_recommendations_top _ _ _ Hu Hin Hc) as [t [_ [Hpc Hmax]]].
  rewrite Hpc. specialize (Hmax d Hd).
  unfold calculate_score in Hmax; simpl in Hmax.
  assert (Hb : Qlt_bool 0 (price d) = true) by (apply Qlt_bool_iff; exact Hpd).
  rewrite Hb in Hmax.
  destruct (Qlt_bool 0 (price t)) eqn:Ht.
  - apply Qlt_bool_iff in Ht. split; [exact Ht|].
    apply Qdiv_1000_le_inv; assumption.
  - exfalso. apply (Qlt_not_le _ _ (Qdiv_1000_pos _ Hpd)); exact Hmax.
Qed.

Example mark_recommendations_cheapest_example :
  map recommended (mark_recommendations "cheapest" [flight_a; flight_b; flight_c])
  = [false; true; false].
Proof. vm_compute. reflexivity. Qed.

Example travel_process_flight_example :
  count_recommended (travel_process None "flight" [flight_a; flight_b] [] [] [] [bus_a])
  = 1%nat.
Proof. vm_compute. reflexivity. Qed.

(** ** The intent classifier *)

Example classify_restaurant_query :
  let r := classify "What restaurants are nearby?" in
  (intent r, category r) = ("query", "restaurant").
Proof. vm_compute. reflexivity. Qed.

(** "activities" does not contain the keyword "activity". *)
Example classify_add_hiking :
  let r := classify "Add more hiking activities" in
  (intent r, category r, action r) = ("modify", "general", "add").
Proof. vm_compute. reflexivity. Qed.

Example classify_change_hotel :
  let r := classify "Change my hotel" in
  (intent r, category r, action r) = ("modify", "accommodation", "change").
Proof. vm_compute. reflexivity. Qed.

(** C8: the classifier gives question keywords priority over modification
    keywords; [chat] is returned only when neither a question nor a
    modification keyword occurs; an utterance with no keyword at all is a
    [query] with confidence 0.5, never a [modify]. Keywords are matched as
    substrings of the lower-cased utterance, as in the code. *)
Theorem classify_priority : forall u,
  let pl := lower u in
  (any_in query_keywords pl = true -> any_in modify_keywords pl = true ->
     intent (classify u) = "query") /\
  (intent (classify u) = "chat" ->
     any_in query_keywords pl = false /\ any_in modify_keywords pl = false) /\
  (any_in query_keywords pl = false -> any_in modify_keywords pl = false ->
   any_in chat_keywords pl = false ->
     intent (classify u) = "query" /\ confidence (classify u) = 5 # 10 /\
     intent (classify u) <> "modify").
Proof.
  intros u pl. unfold classify. fold pl.
  destruct (any_in query_keywords pl) eqn:Q;
  destruct (any_in modify_keywords pl) eqn:M;
  destruct (any_in chat_keywords pl) eqn:C; simpl;
  repeat split; intros; try discriminate; try reflexivity; try assumption.
Qed.

(** ** Follow-up modification and versioning *)

Example follow_up_new_restaurant_example :
  match service_handle_follow_up agents_new_restaurant store0 "add more restaurants" "user_1" with
  | Ok (resp, log, s1) =>
      resp_itinerary resp = Some plan1 /\ log = ["restaurant"; "planner"] /\
      map version_number (versions s1) = [1; 2]%nat
  | Raise _ => False
  end.
Proof. vm_compute. auto. Qed.

(** C10: a modification whose action is ["remove"], or whose category is
    [budget] or [general], invokes no stage and returns the original plan
    with the could-not-make-that-change message. *)
Theorem handle_modification_no_stage : forall ag prompt cls itinerary,
  action cls = "remove" \/ category cls = "budget" \/ category cls = "general" ->
  handle_modification ag prompt cls itinerary =
  Ok ({| resp_type := "modification"; resp_itinerary := Some itinerary;
         resp_answer := None; resp_message := couldnt_message |}, []).
Proof.
  intros ag prompt cls itinerary H. unfold handle_modification.
  destruct H as [Ha|[Hc|Hc]].
  - assert (E : is_add_change_find (action cls) = false) by (rewrite Ha; reflexivity).
    rewrite E.
    destruct (String.eqb (category cls) "accommodation"); [reflexivity|].
    destruct (String.eqb (category cls) "restaurant"); [reflexivity|].
    destruct (String.eqb (category cls) "transportation"); [reflexivity|].
    destruct (String.eqb (category cls) "experience"); reflexivity.
  - rewrite Hc; reflexivity.
  - rewrite Hc; reflexivity.
Qed.

(** Every completed modification returns a plan, of type "modification". *)
Lemma handle_modification_returns_plan : forall ag prompt cls it resp log,
  handle_modification ag prompt cls it = Ok (resp, log) ->
  resp_type resp = "modification" /\ exists p, resp_itinerary resp = Some p.
Proof.
  intros ag prompt cls it resp log H.
  unfold handle_modification, bind, run_stage in H.
  repeat (match type of H with
          | context [if ?b then _ else _] => destruct b
          | context [match ?x with _ => _ end] => destruct x
          end; simpl in H);
  try discriminate; inversion H; subst; simpl; eauto.
Qed.

(** In the service, every completed [modify] follow-up appends a version,
    whether or not the handler changed the plan. *)
Lemma service_modify_appends_version : forall ag s prompt modifier resp log s',
  intent (classify prompt) = "modify" ->
  service_handle_follow_up ag s prompt modifier = Ok (resp, log, s') ->
  length (versions s') = S (length (versions s)).
Proof.
  intros ag s prompt modifier resp log s' Hi H.
  unfold service_handle_follow_up, handle_follow_up in H. rewrite Hi in H.
  simpl in H.
  destruct (handle_modification ag prompt (classify prompt) (main_itinerary s))
    as [[resp0 log0]|e] eqn:Hm; simpl in H; [|discriminate].
  destruct (handle_modification_returns_plan _ _ _ _ _ _ Hm) as [Ht [p Hp]].
  rewrite Hp, Ht in H; simpl in H. inversion H; subst.
  unfold save_itinerary_with_modifier; simpl; rewrite length_app; simpl; lia.
Qed.

(** C3 (code defect): a [modify] follow-up whose re-run restaurant stage
    returns no records still stores a new version (version 2, a copy of the
    unchanged plan) while the caller is told no change could be made. *)
Theorem follow_up_empty_stage_persists_version :
  match service_handle_follow_up agents_empty store0 "add more restaurants" "user_1" with
  | Ok (resp, log, s1) =>
      resp_message resp = couldnt_message /\ log = ["restaurant"] /\
      main_itinerary s1 = plan0 /\
      map version_number (versions s1) = [1; 2]%nat
  | Raise _ => False
  end.
Proof. vm_compute. auto. Qed.

(** ** Recommendation marking over a whole run *)

(** C1 (code defect): [process] hands only [flights] and [trains] to
    [_mark_recommendations]; in a bus run (and likewise a car run) the
    returned candidate list is non-empty and no candidate is marked. *)
Theorem travel_process_bus_run_unmarked :
  let run := travel_process None "bus" [] [] [bus_a] [] [] in
  length run = 1%nat /\ count_recommended run = 0%nat /\
  let run_car := travel_process None "car" [] [] [] [cab_a] [] in
  length run_car = 1%nat /\ count_recommended run_car = 0%nat.
Proof. vm_compute. auto. Qed.

(** ** The retry policy *)

Example retry_429_three_calls :
  call_generation (always_failing "429 Resource has been exhausted (e.g. check quota).")
  = (Raise (RuntimeError rate_limit_guidance), 3%nat).
Proof. vm_compute. reflexivity. Qed.

(** Persistent failures whose first line carries a marker are tried exactly
    three times, and the last error is surfaced. *)
Lemma run_with_retry_matching : forall call,
  (forall k, exists e, call k = Raise e /\ retry_predicate e = true) ->
  exists e, call 3%nat = Raise e /\ run_with_retry call = (Raise e, 3%nat).
Proof.
  intros call H.
  destruct (H 1%nat) as [e1 [H1 P1]], (H 2%nat) as [e2 [H2 P2]],
           (H 3%nat) as [e3 [H3 P3]].
  exists e3. split; [exact H3|].
  unfold run_with_retry; simpl. rewrite H1, P1; simpl. rewrite H2, P2; simpl.
  rewrite H3, P3. reflexivity.
Qed.

(** A first failure whose message does not match is not retried. *)
Lemma run_with_retry_non_matching : forall call e,
  call 1%nat = Raise e -> retry_predicate e = false ->
  run_with_retry call = (Raise e, 1%nat).
Proof. intros call e H P. unfold run_with_retry; simpl. rewrite H, P. reflexivity. Qed.

(** C4 (code defect): a rate-limit error whose marker sits after a line
    break ("429" on the second line) is not retried: one call is made, and
    the caller then reports it as a rate-limit error. *)
Theorem retry_429_second_line_single_call :
  let msg := "Service unavailable" ++ String newline "429 Too Many Requests" in
  contains "429" msg = true /\
  call_generation (always_failing msg) = (Raise (RuntimeError rate_limit_guidance), 1%nat).
Proof. vm_compute. split; reflexivity. Qed.

(** ** Lodging extraction *)

(** C5 (code defect): a fenced block holding a list whose item is not an
    object makes the extraction raise: [1 .get] is an AttributeError, which
    neither [_create_accommodation_from_dict] nor [_parse_results] catches. *)
Theorem parse_results_raises_on_int_item :
  parse_results json_loads_fragment (fence body_int_list) req0 = Raise AttributeError.
Proof. vm_compute. reflexivity. Qed.

(** A record whose numeric coercion fails is dropped, the rest is kept. *)
Example parse_results_drops_bad_price :
  let body := "[{" ++ quoted "price" ++ ": " ++ quoted "cheap" ++ "}, {"
              ++ quoted "price" ++ ": 100}]" in
  match parse_results json_loads_fragment (fence body) req0 with
  | Ok [a] => price_per_night a = 100%Q /\ acc_id a = "acc_1"
  | _ => False
  end.
Proof. vm_compute. split; reflexivity. Qed.

















(** ** Budgets *)

Lemma Qlt_bool_false : forall a b, Qlt_bool a b = false -> b <= a.
Proof.
  intros a b H. apply Qnot_lt_le. intro H'. apply Qlt_bool_iff in H'. congruence.
Qed.

Lemma round_half_even_bound : forall x,
  -(1#2) <= inject_Z (round_half_even x) - x <= 1#2.
Proof.
  intro x. unfold round_half_even.
  pose proof (Qfloor_le x) as L. pose proof (Qlt_floor x) as U.
  rewrite inject_Z_plus in U. change (inject_Z 1) with 1 in U.
  set (f := Qfloor x) in *.
  destruct (Qlt_bool (x - inject_Z f) (1#2)) eqn:E1.
  { apply Qlt_bool_iff in E1. split; lra. }
  apply Qlt_bool_false in E1.
  assert (P : inject_Z (f + 1) = inject_Z f + 1)
    by (rewrite inject_Z_plus; reflexivity).
  destruct (Qlt_bool (1#2) (x - inject_Z f)) eqn:E2.
  { apply Qlt_bool_iff in E2. rewrite P. split; lra. }
  apply Qlt_bool_false in E2.
  destruct (Z.even f); [|rewrite P]; split; lra.
Qed.

Lemma round2_bound : forall x, -(1#200) <= round2 x - x <= 1#200.
Proof.
  intro x. unfold round2.
  pose proof (round_half_even_bound (x * 100)) as [L U].
  set (n := round_half_even (x * 100)) in *.
  assert (E : Qmake n 100 == inject_Z n * (1#100)).
  { unfold Qeq; simpl. lia. }
  rewrite E. split; lra.
Qed.

(** C9, counterexample: the budgeting stage rounds every field to cents
    separately; with a lodging at 100.004 and an activity at 20.004 the
    fields sum to 414.40 while the total is 414.41. *)
Theorem budget_process_fields_miss_total :
  let b := budget_process request_default (Some [loft]) None
             (Some [mkExperience (Some (20004#1000))]) None in
  component_sum b == 41440#100 /\ total b == 41441#100 /\ ~ (component_sum b == total b).
Proof. vm_compute. split; [reflexivity|split; [reflexivity|discriminate]]. Qed.

(** C9 (amended): the fields of the budgeting stage's breakdown sum to its
    total within 3 cents (each of the six roundings moves a value by at most
    half a cent), and the planner's fallback breakdown sums exactly. *)
Theorem budget_fields_sum_total :
  (forall request stay travel exps rests,
     let b := budget_process request stay travel exps rests in
     -(3#100) <= component_sum b - total b <= 3#100) /\
  (forall acc rests duration request,
     let b := calculate_budget acc rests duration request None in
     component_sum b == total b).
Proof.
  split.
  - intros request stay travel exps rests b. subst b. unfold budget_process.
    cbv zeta.
    set (a := calculate_accommodation_cost stay request _).
    set (t := calculate_transportation_cost travel _).
    set (m := calculate_meals_cost rests _ _).
    set (e := calculate_experiences_cost exps _).
    unfold component_sum; simpl.
    pose proof (round2_bound a). pose proof (round2_bound t).
    pose proof (round2_bound m). pose proof (round2_bound e).
    pose proof (round2_bound ((a + t + m + e) * (12#100))).
    pose proof (round2_bound (a + t + m + e + (a + t + m + e) * (12#100))).
    split; lra.
  - intros acc rests duration request b. subst b.
    unfold calculate_budget, component_sum; simpl. ring.
Qed.

(** ** The planning pipeline *)

Import Pipeline.








(** ** Witnesses *)

Lemma cheapest_recommended_min_price_witness :
  let l := [flight_a; flight_b] in
  let c := hd flight_a (filter recommended (mark_recommendations "cheapest" l)) in
  unmarked l /\ In c (mark_recommendations "cheapest" l) /\ recommended c = true /\
  In flight_a l /\ 0 < price flight_a /\
  (0 < price c /\ price c <= price flight_a).
Proof.
  intros l c.
  assert (Hu : unmarked l) by (repeat constructor).
  assert (Hin : In c (mark_recommendations "cheapest" l)) by (vm_compute; right; left; reflexivity).
  assert (Hc : recommended c = true) by (vm_compute; reflexivity).
  assert (Hd : In flight_a l) by (left; reflexivity).
  assert (Hp : 0 < price flight_a) by (vm_compute; reflexivity).
  refine (conj Hu (conj Hin (conj Hc (conj Hd (conj Hp _))))).
  apply (cheapest_recommended_min_price l c Hu Hin Hc flight_a Hd Hp).
Defined.

Lemma classify_priority_witness :
  let u := "What should I change?" in
  any_in query_keywords (lower u) = true /\ any_in modify_keywords (lower u) = true /\
  intent (classify u) = "query".
Proof.
  intro u.
  assert (Hq : any_in query_keywords (lower u) = true) by (vm_compute; reflexivity).
  assert (Hm : any_in modify_keywords (lower u) = true) by (vm_compute; reflexivity).
  refine (conj Hq (conj Hm _)).
  exact (proj1 (classify_priority u) Hq Hm).
Defined.

Lemma handle_modification_no_stage_witness :
  let cls := classify "remove the museum visit" in
  action cls = "remove" /\
  handle_modification agents_new_restaurant "remove the museum visit" cls plan0 =
  Ok ({| resp_type := "modification"; resp_itinerary := Some plan0;
         resp_answer := None; resp_message := couldnt_message |}, []).
Proof.
  intro cls.
  assert (Ha : action cls = "remove") by (vm_compute; reflexivity).
  split; [exact Ha|].
  apply (handle_modification_no_stage agents_new_restaurant "remove the museum visit" cls plan0).
  left. exact Ha.
Defined.

(** ** Itinerary storage *)

Lemma find_none_existsb : forall {A} (f : A -> bool) l,
  find f l = None <-> existsb f l = false.
Proof.
  intros A f l; induction l as [|a l IH]; simpl; [tauto|].
  destruct (f a); simpl; [split; discriminate|exact IH].
Qed.

Lemma find_app_single : forall {A} (f : A -> bool) l x,
  find f (l ++ [x])%list =
  match find f l with Some y => Some y | None => if f x then Some x else None end.
Proof.
  intros A f l x; induction l as [|a l IH]; simpl; [reflexivity|].
  destruct (f a); [reflexivity|exact IH].
Qed.

Lemma is_trip_self : forall u t j, is_trip u t (mkItineraryRow u t j) = true.
Proof. intros; unfold is_trip; simpl; rewrite !String.eqb_refl; reflexivity. Qed.

Lemma is_trip_version_self : forall u t v m j c,
  is_trip_version u t (mkVersionRow u t v m j c) = true.
Proof. intros; unfold is_trip_version; simpl; rewrite !String.eqb_refl; reflexivity. Qed.

Lemma is_trip_other : forall u t u' t' r,
  u' <> u \/ t' <> t -> is_trip u t r = true -> is_trip u' t' r = false.
Proof.
  unfold is_trip; intros u t u' t' r Hne H.
  apply andb_true_iff in H as [H1 H2].
  apply String.eqb_eq in H1; apply String.eqb_eq in H2.
  rewrite H1, H2.
  destruct Hne as [Hne|Hne].
  - apply String.eqb_neq in Hne; rewrite String.eqb_sym, Hne; reflexivity.
  - apply String.eqb_neq in Hne; rewrite (String.eqb_sym t t'), Hne, andb_false_r; reflexivity.
Qed.

Lemma is_trip_version_other : forall u t u' t' r,
  u' <> u \/ t' <> t -> is_trip_version u t r = true -> is_trip_version u' t' r = false.
Proof.
  unfold is_trip_version; intros u t u' t' r Hne H.
  apply andb_true_iff in H as [H1 H2].
  apply String.eqb_eq in H1; apply String.eqb_eq in H2.
  rewrite H1, H2.
  destruct Hne as [Hne|Hne].
  - apply String.eqb_neq in Hne; rewrite String.eqb_sym, Hne; reflexivity.
  - apply String.eqb_neq in Hne; rewrite (String.eqb_sym t t'), Hne, andb_false_r; reflexivity.
Qed.

Lemma find_update_same : forall u t json l r,
  find (is_trip u t) l = Some r ->
  find (is_trip u t) (itinerary_rows (update_itinerary_row (mkDb l []) u t json))
  = Some (mkItineraryRow u t json).
Proof.
  intros u t json l; induction l as [|a l IH]; simpl; intros r H; [discriminate|].
  destruct (is_trip u t a) eqn:E; simpl.
  - rewrite is_trip_self; reflexivity.
  - rewrite E; exact (IH r H).
Qed.

Lemma find_update_other : forall u t u' t' json l,
  u' <> u \/ t' <> t ->
  find (is_trip u' t') (itinerary_rows (update_itinerary_row (mkDb l []) u t json))
  = find (is_trip u' t') l.
Proof.
  intros u t u' t' json l Hne; induction l as [|a l IH]; simpl; [reflexivity|].
  destruct (is_trip u t a) eqn:E; simpl.
  - rewrite (is_trip_other u t u' t' _ Hne (is_trip_self u t json)).
    rewrite (is_trip_other u t u' t' a Hne E); exact IH.
  - destruct (is_trip u' t' a); [reflexivity|exact IH].
Qed.

Lemma update_itinerary_row_versions : forall db u t json,
  version_rows (update_itinerary_row db u t json) = version_rows db.
Proof. reflexivity. Qed.

Lemma update_itinerary_row_rows : forall db u t json,
  itinerary_rows (update_itinerary_row db u t json)
  = itinerary_rows (update_itinerary_row (mkDb (itinerary_rows db) []) u t json).
Proof. reflexivity. Qed.

(** The fold of [select_max_version] only sees the rows of the trip. *)

Lemma select_max_version_numbers : forall db u t,
  select_max_version db u t = fold_left max_step (trip_version_numbers db u t) None.
Proof.
  intros db u t; unfold select_max_version, trip_version_numbers.
  generalize (@None Z); induction (version_rows db) as [|a l IH]; intro acc; simpl;
    [reflexivity|].
  destruct (is_trip_version u t a); simpl; apply IH.
Qed.

Lemma fold_max_seq : forall k,
  fold_left max_step (map Z.of_nat (seq 1 k)) None
  = if Nat.eqb k 0 then None else Some (Z.of_nat k).
Proof.
  induction k as [|k IH]; [reflexivity|].
  rewrite seq_S, map_app, fold_left_app, IH; simpl.
  destruct k as [|k]; simpl; [reflexivity|].
  unfold max_step; f_equal; lia.
Qed.

Lemma next_version_seq : forall db u t k,
  trip_version_numbers db u t = map Z.of_nat (seq 1 k) ->
  next_version db u t = Z.of_nat (S k).
Proof.
  intros db u t k H; unfold next_version.
  rewrite select_max_version_numbers, H, fold_max_seq.
  destruct k as [|k]; [reflexivity|].
  cbn [Nat.eqb truthy_Z].
  destruct (Z.of_nat (S k) =? 0)%Z eqn:E; [apply Z.eqb_eq in E; lia|].
  lia.
Qed.

Lemma no_version_conflict : forall rows u t k,
  trip_version_numbers (mkDb [] rows) u t = map Z.of_nat (seq 1 k) ->
  existsb (fun r' => is_trip_version u t r' && Z.eqb (ver_number r') (Z.of_nat (S k))) rows
  = false.
Proof.
  intros rows u t k H.
  destruct (existsb _ rows) eqn:E; [|reflexivity].
  apply existsb_exists in E as [r [Hin Hr]].
  apply andb_true_iff in Hr as [Hv Hn]; apply Z.eqb_eq in Hn.
  assert (Hm : In (ver_number r) (trip_version_numbers (mkDb [] rows) u t)).
  { unfold trip_version_numbers; simpl; apply in_map, filter_In; auto. }
  rewrite H, Hn in Hm; apply in_map_iff in Hm as [x [Hx Hs]].
  apply in_seq in Hs; lia.
Qed.

Lemma trip_version_numbers_snoc : forall l rows u t v m j c,
  trip_version_numbers (mkDb l (rows ++ [mkVersionRow u t v m j c])%list) u t
  = (trip_version_numbers (mkDb [] rows) u t ++ [v])%list.
Proof.
  intros; unfold trip_version_numbers; simpl.
  rewrite filter_app, map_app; simpl; rewrite is_trip_version_self; reflexivity.
Qed.

Lemma trip_version_numbers_rows : forall db u t,
  trip_version_numbers db u t = trip_version_numbers (mkDb [] (version_rows db)) u t.
Proof. reflexivity. Qed.

Lemma save_itinerary_appends : forall Plan dumps db u t (plan : Plan) now k,
  trip_version_numbers db u t = map Z.of_nat (seq 1 k) ->
  select_itinerary db u t <> None \/ k = 0%nat ->
  exists db', save_itinerary Plan dumps db u t plan now = DbOk db' /\
              trip_version_numbers db' u t = map Z.of_nat (seq 1 (S k)).
Proof.
  intros Plan dumps db u t plan now k H Hpre.
  unfold save_itinerary.
  destruct (select_itinerary db u t) as [r|] eqn:Hsel.
  - rewrite (next_version_seq db u t k H).
    unfold insert_version_row; cbn [ver_user_id ver_trip_id ver_number].
    rewrite update_itinerary_row_versions.
    rewrite trip_version_numbers_rows in H.
    rewrite (no_version_conflict _ u t k H).
    eexists; split; [reflexivity|].
    rewrite trip_version_numbers_snoc, H, (seq_S k 1), map_app; reflexivity.
  - destruct Hpre as [Hpre|Hk]; [congruence|subst k].
    unfold insert_itinerary_row; cbn [row_user_id row_trip_id].
    unfold select_itinerary in Hsel; apply find_none_existsb in Hsel; rewrite Hsel.
    unfold insert_version_row; cbn [ver_user_id ver_trip_id ver_number version_rows].
    rewrite trip_version_numbers_rows in H.
    pose proof (no_version_conflict _ u t 0 H) as Hc; change (Z.of_nat 1) with 1%Z in Hc; rewrite Hc.
    eexists; split; [reflexivity|].
    rewrite trip_version_numbers_snoc, H; reflexivity.
Qed.

Lemma save_with_modifier_appends : forall Plan dumps db u t (plan : Plan) m now k,
  trip_version_numbers db u t = map Z.of_nat (seq 1 k) ->
  exists db', save_itinerary_with_modifier_db Plan dumps db u t plan m now = DbOk db' /\
              trip_version_numbers db' u t = map Z.of_nat (seq 1 (S k)) /\
              itinerary_rows db' = itinerary_rows (update_itinerary_row db u t (dumps plan)).
Proof.
  intros Plan dumps db u t plan m now k H.
  unfold save_itinerary_with_modifier_db.
  rewrite (next_version_seq db u t k H).
  unfold insert_version_row; cbn [ver_user_id ver_trip_id ver_number].
  rewrite update_itinerary_row_versions.
  rewrite trip_version_numbers_rows in H.
  rewrite (no_version_conflict _ u t k H).
  eexists; split; [reflexivity|split; [|reflexivity]].
  rewrite trip_version_numbers_snoc, H, (seq_S k 1), map_app; reflexivity.
Qed.

(** Shape of a successful [save_itinerary]: the itinerary row of the trip
    is updated or appended, and one version row is appended. *)
Lemma save_itinerary_shape : forall Plan dumps db u t (plan : Plan) now db',
  save_itinerary Plan dumps db u t plan now = DbOk db' ->
  exists v,
    version_rows db' = (version_rows db ++ [mkVersionRow u t v u (dumps plan) now])%list /\
    existsb (fun r' => is_trip_version u t r' && Z.eqb (ver_number r') v) (version_rows db)
      = false /\
    v = match select_itinerary db u t with Some _ => next_version db u t | None => 1%Z end /\
    itinerary_rows db' =
      match select_itinerary db u t with
      | Some _ => itinerary_rows (update_itinerary_row db u t (dumps plan))
      | None => (itinerary_rows db ++ [mkItineraryRow u t (dumps plan)])%list
      end /\
    (select_itinerary db u t = None -> existsb (is_trip u t) (itinerary_rows db) = false).
Proof.
  intros Plan dumps db u t plan now db' H.
  unfold save_itinerary in H.
  destruct (select_itinerary db u t) as [r|] eqn:Hsel.
  - unfold insert_version_row in H; cbn [ver_user_id ver_trip_id ver_number] in H.
    rewrite update_itinerary_row_versions in H.
    destruct (existsb _ (version_rows db)) eqn:E; [discriminate|].
    injection H as <-.
    exists (next_version db u t); repeat split; auto; discriminate.
  - unfold insert_itinerary_row in H; cbn [row_user_id row_trip_id] in H.
    pose proof Hsel as Hs; unfold select_itinerary in Hs; apply find_none_existsb in Hs.
    rewrite Hs in H.
    unfold insert_version_row in H; cbn [ver_user_id ver_trip_id ver_number version_rows] in H.
    destruct (existsb _ (version_rows db)) eqn:E; [discriminate|].
    injection H as <-.
    exists 1%Z; repeat split; auto.
Qed.

Lemma find_version_snoc_new : forall rows u t v m j c,
  existsb (fun r' => is_trip_version u t r' && Z.eqb (ver_number r') v) rows = false ->
  find (fun r => is_trip_version u t r && Z.eqb (ver_number r) v)
       (rows ++ [mkVersionRow u t v m j c])%list = Some (mkVersionRow u t v m j c).
Proof.
  intros rows u t v m j c H.
  rewrite find_app_single.
  apply find_none_existsb in H; rewrite H.
  cbn [ver_number]; rewrite is_trip_version_self, Z.eqb_refl; reflexivity.
Qed.

Lemma find_version_snoc_other : forall rows u t u' t' v' v m j c,
  u' <> u \/ t' <> t ->
  find (fun r => is_trip_version u' t' r && Z.eqb (ver_number r) v')
       (rows ++ [mkVersionRow u t v m j c])%list
  = find (fun r => is_trip_version u' t' r && Z.eqb (ver_number r) v') rows.
Proof.
  intros rows u t u' t' v' v m j c Hne.
  rewrite find_app_single.
  rewrite (is_trip_version_other u t u' t' _ Hne (is_trip_version_self u t v m j c)).
  destruct (find _ rows); reflexivity.
Qed.

Lemma map_update_no_row : forall u t json l,
  find (is_trip u t) l = None ->
  itinerary_rows (update_itinerary_row (mkDb l []) u t json) = l.
Proof.
  intros u t json l; induction l as [|a l IH]; simpl; intros H; [reflexivity|].
  destruct (is_trip u t a); [discriminate|].
  f_equal; exact (IH H).
Qed.

Lemma load_after_other : forall Plan loads wti db db' u t u' t' v n m j c,
  u' <> u \/ t' <> t ->
  find (is_trip u' t') (itinerary_rows db') = find (is_trip u' t') (itinerary_rows db) ->
  version_rows db' = (version_rows db ++ [mkVersionRow u t n m j c])%list ->
  load_itinerary Plan loads wti db' u' t' v = load_itinerary Plan loads wti db u' t' v.
Proof.
  intros Plan loads wti db db' u t u' t' v n m j c Hne Hi Hv.
  unfold load_itinerary, select_itinerary; rewrite Hi, Hv.
  destruct v; [rewrite find_version_snoc_other by exact Hne|]; reflexivity.
Qed.

Lemma versions_after_other : forall db db' u t u' t' n m j c,
  u' <> u \/ t' <> t ->
  version_rows db' = (version_rows db ++ [mkVersionRow u t n m j c])%list ->
  get_itinerary_versions db' u' t' = get_itinerary_versions db u' t'.
Proof.
  intros db db' u t u' t' n m j c Hne Hv.
  unfold get_itinerary_versions; rewrite Hv, filter_app; cbn [filter].
  rewrite (is_trip_version_other u t u' t' _ Hne (is_trip_version_self u t n m j c)).
  rewrite app_nil_r; reflexivity.
Qed.

Lemma save_with_modifier_shape : forall Plan dumps db u t (plan : Plan) m now db',
  save_itinerary_with_modifier_db Plan dumps db u t plan m now = DbOk db' ->
  itinerary_rows db' = itinerary_rows (update_itinerary_row db u t (dumps plan)) /\
  version_rows db' =
    (version_rows db ++ [mkVersionRow u t (next_version db u t) m (dumps plan) now])%list.
Proof.
  intros Plan dumps db u t plan m now db' H.
  unfold save_itinerary_with_modifier_db, insert_version_row in H.
  destruct (existsb _ _); [discriminate|].
  injection H as <-; split; reflexivity.
Qed.

(** ** Extra properties: itinerary storage *)

(** [ItineraryService._save_itinerary] then [_load_itinerary]: after a
    successful save, loading the latest itinerary of the trip (version
    [None]) and loading the version number the save wrote both give back the
    decoded JSON that was saved, with the trip id set. *)
Theorem save_itinerary_load_round_trip :
  forall Plan dumps loads with_trip_id db u t (plan p : Plan) now db',
  save_itinerary Plan dumps db u t plan now = DbOk db' ->
  loads (dumps plan) = Ok p ->
  load_itinerary Plan loads with_trip_id db' u t None = DbOk (Some (with_trip_id p t)) /\
  load_itinerary Plan loads with_trip_id db' u t
    (Some (match select_itinerary db u t with Some _ => next_version db u t | None => 1%Z end))
  = DbOk (Some (with_trip_id p t)).
Proof.
  intros Plan dumps loads with_trip_id db u t plan p now db' H Hl.
  destruct (save_itinerary_shape _ _ _ _ _ _ _ _ H) as [v [Hv [Hex [Hveq [Hrows _]]]]].
  rewrite <- Hveq.
  split; unfold load_itinerary.
  - unfold select_itinerary at 1; rewrite Hrows.
    destruct (select_itinerary db u t) as [r|] eqn:Hsel.
    + rewrite update_itinerary_row_rows, (find_update_same u t (dumps plan) _ r Hsel).
      cbn [option_map row_itinerary]; rewrite Hl; reflexivity.
    + rewrite find_app_single; unfold select_itinerary in Hsel; rewrite Hsel, is_trip_self.
      cbn [option_map row_itinerary]; rewrite Hl; reflexivity.
  - rewrite Hv, find_version_snoc_new by exact Hex.
    cbn [option_map ver_itinerary]; rewrite Hl; reflexivity.
Qed.

(** [ItineraryService._save_itinerary]: when the versions stored for a trip
    are [1..k] and the trip's itinerary row exists (or no version is stored
    yet), the save succeeds and the stored versions become [1..k+1]. *)
Theorem save_itinerary_next_version : forall Plan dumps db u t (plan : Plan) now k,
  trip_version_numbers db u t = map Z.of_nat (seq 1 k) ->
  select_itinerary db u t <> None \/ k = 0%nat ->
  exists db', save_itinerary Plan dumps db u t plan now = DbOk db' /\
              trip_version_numbers db' u t = map Z.of_nat (seq 1 (S k)).
Proof.
  intros; apply save_itinerary_appends; assumption.
Qed.

(** [ItineraryService._save_itinerary_with_modifier]: when the versions
    stored for a trip are [1..k], the save succeeds (no primary-key
    conflict), the stored versions become [1..k+1], and the only change to
    [itineraries] is the [UPDATE] of that trip's row. *)
Theorem save_with_modifier_next_version : forall Plan dumps db u t (plan : Plan) m now k,
  trip_version_numbers db u t = map Z.of_nat (seq 1 k) ->
  exists db', save_itinerary_with_modifier_db Plan dumps db u t plan m now = DbOk db' /\
              trip_version_numbers db' u t = map Z.of_nat (seq 1 (S k)) /\
              itinerary_rows db' = itinerary_rows (update_itinerary_row db u t (dumps plan)).
Proof.
  intros; apply save_with_modifier_appends; assumption.
Qed.

(** [ItineraryService._update_itinerary]: a trip without an itinerary row
    raises "Itinerary not found"; otherwise, with versions [1..k] stored,
    it saves version [k+1]. *)
Theorem update_itinerary_versions : forall Plan dumps db u t (plan : Plan) now k,
  trip_version_numbers db u t = map Z.of_nat (seq 1 k) ->
  match select_itinerary db u t with
  | None => update_itinerary Plan dumps db u t plan now = DbRaise ItineraryNotFound
  | Some _ => exists db', update_itinerary Plan dumps db u t plan now = DbOk db' /\
                trip_version_numbers db' u t = map Z.of_nat (seq 1 (S k))
  end.
Proof.
  intros Plan dumps db u t plan now k H.
  unfold update_itinerary.
  destruct (select_itinerary db u t) eqn:Hsel; [|reflexivity].
  apply save_itinerary_appends; [exact H|left; congruence].
Qed.

(** [_save_itinerary] and [_save_itinerary_with_modifier] touch only their
    own trip: for any other [(user_id, trip_id)], every load and the version
    history are the same after the save as before. *)
Theorem save_other_trip_unchanged :
  forall Plan dumps loads with_trip_id db u t u' t' (plan : Plan) m now,
  u' <> u \/ t' <> t ->
  (forall db', save_itinerary Plan dumps db u t plan now = DbOk db' ->
     (forall v, load_itinerary Plan loads with_trip_id db' u' t' v
                = load_itinerary Plan loads with_trip_id db u' t' v) /\
     get_itinerary_versions db' u' t' = get_itinerary_versions db u' t') /\
  (forall db', save_itinerary_with_modifier_db Plan dumps db u t plan m now = DbOk db' ->
     (forall v, load_itinerary Plan loads with_trip_id db' u' t' v
                = load_itinerary Plan loads with_trip_id db u' t' v) /\
     get_itinerary_versions db' u' t' = get_itinerary_versions db u' t').
Proof.
  intros Plan dumps loads with_trip_id db u t u' t' plan m now Hne; split.
  - intros db' H.
    destruct (save_itinerary_shape _ _ _ _ _ _ _ _ H) as [v [Hv [_ [_ [Hrows _]]]]].
    split; [intro w; apply (load_after_other _ _ _ _ _ u t _ _ _ v u (dumps plan) now Hne)
           |exact (versions_after_other _ _ u t _ _ v u (dumps plan) now Hne Hv)];
      [|exact Hv].
    rewrite Hrows; destruct (select_itinerary db u t).
    + rewrite update_itinerary_row_rows; apply find_update_other; exact Hne.
    + rewrite find_app_single, (is_trip_other u t u' t' _ Hne (is_trip_self u t _)).
      destruct (find _ (itinerary_rows db)); reflexivity.
  - intros db' H.
    destruct (save_with_modifier_shape _ _ _ _ _ _ _ _ _ H) as [Hrows Hv].
    split; [intro w; apply (load_after_other _ _ _ _ _ u t _ _ _ (next_version db u t) m
                                               (dumps plan) now Hne)
           |exact (versions_after_other _ _ u t _ _ _ m (dumps plan) now Hne Hv)];
      [|exact Hv].
    rewrite Hrows, update_itinerary_row_rows; apply find_update_other; exact Hne.
Qed.

(** [ItineraryService._save_itinerary_with_modifier] on a trip with no
    itinerary row and no version: the [UPDATE] changes nothing, yet the
    version row is inserted (foreign keys are not enforced on these
    connections), so the trip gets version 1 while loading its latest
    itinerary still gives [None]. *)
Theorem save_with_modifier_missing_trip_orphan :
  forall Plan dumps loads with_trip_id db u t (plan : Plan) m now,
  select_itinerary db u t = None ->
  trip_version_numbers db u t = [] ->
  exists db', save_itinerary_with_modifier_db Plan dumps db u t plan m now = DbOk db' /\
    itinerary_rows db' = itinerary_rows db /\
    load_itinerary Plan loads with_trip_id db' u t None = DbOk None /\
    get_itinerary_versions db' u t = [(1%Z, m, now)].
Proof.
  intros Plan dumps loads with_trip_id db u t plan m now Hsel Hnum.
  destruct (save_with_modifier_appends Plan dumps db u t plan m now 0 Hnum)
    as [db' [H [_ Hrows]]].
  destruct (save_with_modifier_shape _ _ _ _ _ _ _ _ _ H) as [_ Hv].
  assert (Hrows' : itinerary_rows db' = itinerary_rows db).
  { rewrite Hrows, update_itinerary_row_rows; apply map_update_no_row; exact Hsel. }
  exists db'; split; [exact H|split; [exact Hrows'|split]].
  - unfold load_itinerary, select_itinerary; rewrite Hrows'.
    unfold select_itinerary in Hsel; rewrite Hsel; reflexivity.
  - rewrite (next_version_seq db u t 0 Hnum) in Hv.
    unfold get_itinerary_versions; rewrite Hv, filter_app.
    unfold trip_version_numbers in Hnum; apply map_eq_nil in Hnum; rewrite Hnum.
    cbn [filter]; rewrite is_trip_version_self; reflexivity.
Qed.

Lemma save_itinerary_load_round_trip_witness :
  save_itinerary string (fun p => p) storage_db1 "u1" "trip1" "v2" "t1" = DbOk storage_db2 /\
  load_itinerary string (fun s => Ok s) (fun p _ => p) storage_db2 "u1" "trip1" None
    = DbOk (Some "v2") /\
  load_itinerary string (fun s => Ok s) (fun p _ => p) storage_db2 "u1" "trip1" (Some 2%Z)
    = DbOk (Some "v2").
Proof.
  split; [vm_compute; reflexivity|].
  apply (save_itinerary_load_round_trip string (fun p => p) (fun s => Ok s) (fun p _ => p)
           storage_db1 "u1" "trip1" "v2" "v2" "t1" storage_db2); vm_compute; reflexivity.
Defined.

Lemma save_itinerary_next_version_witness :
  exists db', save_itinerary string (fun p => p) storage_db1 "u1" "trip1" "v2" "t1" = DbOk db' /\
              trip_version_numbers db' "u1" "trip1" = map Z.of_nat (seq 1 2).
Proof.
  apply (save_itinerary_next_version string (fun p => p) storage_db1 "u1" "trip1" "v2" "t1" 1).
  - vm_compute; reflexivity.
  - left; vm_compute; discriminate.
Defined.

Lemma save_with_modifier_next_version_witness :
  exists db', save_itinerary_with_modifier_db string (fun p => p) storage_db1 "u1" "trip1" "v2"
                "u2" "t1" = DbOk db' /\
              trip_version_numbers db' "u1" "trip1" = map Z.of_nat (seq 1 2) /\
              itinerary_rows db' = itinerary_rows (update_itinerary_row storage_db1 "u1" "trip1" "v2").
Proof.
  apply (save_with_modifier_next_version string (fun p => p) storage_db1 "u1" "trip1" "v2" "u2"
           "t1" 1).
  vm_compute; reflexivity.
Defined.

Lemma update_itinerary_versions_witness :
  exists db', update_itinerary string (fun p => p) storage_db1 "u1" "trip1" "v2" "t1" = DbOk db' /\
              trip_version_numbers db' "u1" "trip1" = map Z.of_nat (seq 1 2).
Proof.
  exact (update_itinerary_versions string (fun p => p) storage_db1 "u1" "trip1" "v2" "t1" 1
           ltac:(vm_compute; reflexivity)).
Defined.

Lemma save_other_trip_unchanged_witness :
  load_itinerary string (fun s => Ok s) (fun p _ => p) storage_db2 "u2" "trip1" None
  = load_itinerary string (fun s => Ok s) (fun p _ => p) storage_db1 "u2" "trip1" None.
Proof.
  apply (proj1 (proj1 (save_other_trip_unchanged string (fun p => p) (fun s => Ok s) (fun p _ => p)
                   storage_db1 "u1" "trip1" "u2" "trip1" "v2" "u1" "t1" ltac:(left; discriminate))
                   storage_db2 ltac:(vm_compute; reflexivity))).
Defined.

Lemma save_with_modifier_missing_trip_orphan_witness :
  exists db', save_itinerary_with_modifier_db string (fun p => p) storage_empty "u1" "trip1" "v1"
                "u2" "t0" = DbOk db' /\
    itinerary_rows db' = itinerary_rows storage_empty /\
    load_itinerary string (fun s => Ok s) (fun p _ => p) db' "u1" "trip1" None = DbOk None /\
    get_itinerary_versions db' "u1" "trip1" = [(1%Z, "u2", "t0")].
Proof.
  apply (save_with_modifier_missing_trip_orphan string (fun p => p) (fun s => Ok s) (fun p _ => p)
           storage_empty "u1" "trip1" "v1" "u2" "t0"); vm_compute; reflexivity.
Defined.

(** ** The profile cache *)

Lemma dict_find_set_same : forall P d k (v : P), dict_find P (dict_set P d k v) k = Some v.
Proof.
  intros P d k v; induction d as [|[k' v'] d IH]; unfold dict_find in *; simpl.
  - rewrite String.eqb_refl; reflexivity.
  - destruct (String.eqb k' k) eqn:E; simpl; [rewrite String.eqb_refl; reflexivity|].
    rewrite E; exact IH.
Qed.

Lemma dict_find_set_other : forall P d k k' (v : P),
  k' <> k -> dict_find P (dict_set P d k v) k' = dict_find P d k'.
Proof.
  intros P d k k' v Hne; apply String.eqb_neq in Hne.
  induction d as [|[k0 v0] d IH]; unfold dict_find in *; simpl.
  - rewrite String.eqb_sym, Hne; reflexivity.
  - destruct (String.eqb k0 k) eqn:E; simpl.
    + apply String.eqb_eq in E; subst k0.
      rewrite String.eqb_sym, Hne; reflexivity.
    + destruct (String.eqb k0 k'); [reflexivity|exact IH].
Qed.

(** ** Extra properties: the profile cache *)

(** [TripOrchestrator.register_user_profile] then [get_user_profile]: the
    registered profile is returned from the cache, whatever the database
    holds, and the entries of the other users are unchanged. *)
Theorem register_then_get_user_profile :
  forall Profile profile_user_id to_user_profile cache (p : Profile),
  let cache' := register_user_profile Profile profile_user_id cache p in
  get_user_profile Profile to_user_profile cache' (profile_user_id p) = (Some p, cache') /\
  (forall k, k <> profile_user_id p -> dict_find Profile cache' k = dict_find Profile cache k).
Proof.
  intros Profile profile_user_id to_user_profile cache p cache'; split.
  - unfold get_user_profile, cache', register_user_profile.
    rewrite dict_find_set_same; reflexivity.
  - intros k Hk; apply dict_find_set_other; exact Hk.
Qed.

(** [TripOrchestrator.get_user_profile] on a cache miss: a profile found in
    the database is returned and cached, and from then on it is returned
    from the cache even when the database later answers differently or
    fails. *)
Theorem get_user_profile_caches_hit :
  forall Profile to_user_profile cache user_id (p : Profile),
  dict_find Profile cache user_id = None ->
  to_user_profile user_id = Ok (Some p) ->
  let '(r, cache') := get_user_profile Profile to_user_profile cache user_id in
  r = Some p /\
  forall to_user_profile', get_user_profile Profile to_user_profile' cache' user_id = (Some p, cache').
Proof.
  intros Profile to_user_profile cache user_id p Hmiss Hdb.
  unfold get_user_profile at 1; rewrite Hmiss, Hdb; split; [reflexivity|].
  intro db'; unfold get_user_profile; rewrite dict_find_set_same; reflexivity.
Qed.

(** [TripOrchestrator.get_user_profile] on a cache miss where the database
    has no profile or raises: [None] is returned (the exception is caught)
    and the cache is left as it was, so nothing negative is cached. *)
Theorem get_user_profile_miss_not_cached :
  forall Profile to_user_profile cache user_id,
  dict_find Profile cache user_id = None ->
  (to_user_profile user_id = Ok None \/ exists e, to_user_profile user_id = Raise e) ->
  get_user_profile Profile to_user_profile cache user_id = (None, cache).
Proof.
  intros Profile to_user_profile cache user_id Hmiss Hdb.
  unfold get_user_profile; rewrite Hmiss.
  destruct Hdb as [H|[e H]]; rewrite H; reflexivity.
Qed.

Lemma get_user_profile_caches_hit_witness :
  dict_find string [] "u1" = None /\ (fun (_ : string) => Ok (Some "p1")) "u1" = Ok (Some "p1") /\
  (let '(r, cache') := get_user_profile string (fun _ => Ok (Some "p1")) [] "u1" in
   r = Some "p1" /\
   forall to_user_profile', get_user_profile string to_user_profile' cache' "u1" = (Some "p1", cache')).
Proof.
  split; [reflexivity|split; [reflexivity|]].
  exact (get_user_profile_caches_hit string (fun _ => Ok (Some "p1")) [] "u1" "p1"
           eq_refl eq_refl).
Defined.

Lemma get_user_profile_miss_not_cached_witness :
  get_user_profile string (fun _ => Raise (RuntimeError "database is locked")) [] "u1" = (None, []).
Proof.
  apply get_user_profile_miss_not_cached; [reflexivity|right; eexists; reflexivity].
Defined.

Lemma register_then_get_user_profile_witness :
  dict_find string (register_user_profile string (fun p => p) [("u2", "p2")] "u1") "u2"
  = Some "p2".
Proof.
  apply (proj2 (register_then_get_user_profile string (fun p => p) (fun _ => Ok None)
                  [("u2", "p2")] "u1")).
  discriminate.
Defined.

(** ** Transportation recommendations *)

Lemma count_recommended_app : forall a b,
  count_recommended (a ++ b)%list = (count_recommended a + count_recommended b)%nat.
Proof. intros; unfold count_recommended; rewrite filter_app, length_app; reflexivity. Qed.

Lemma count_recommended_unmarked : forall l, unmarked l -> count_recommended l = 0%nat.
Proof.
  unfold count_recommended; intros l H; induction H as [|t l Ht Hl IH]; simpl;
    [reflexivity|rewrite Ht; exact IH].
Qed.

Lemma unmarked_firstn : forall n l, unmarked l -> unmarked (firstn n l).
Proof.
  intros n l H; revert n; induction H as [|t l Ht Hl IH]; intros [|n]; simpl;
    try constructor; [exact Ht|apply IH].
Qed.

Lemma unmarked_app : forall a b, unmarked a -> unmarked b -> unmarked (a ++ b)%list.
Proof. intros; apply Forall_app; split; assumption. Qed.

Lemma firstn_5_nonempty : forall {A} (l : list A), l <> [] -> firstn 5 l <> [].
Proof. intros A [|x l] H; [congruence|discriminate]. Qed.

Lemma mark_at_marked_fields : forall l i r c,
  unmarked l -> In c (mark_at i r l) -> recommended c = true ->
  exists t, nth_error l i = Some t /\ duration_minutes c = duration_minutes t /\
            carbon_emissions_kg c = carbon_emissions_kg t.
Proof.
  induction l as [|t l IH]; intros i r c Hu Hin Hc; [destruct i; destruct Hin|].
  inversion Hu as [|? ? Ht Hl]; subst.
  destruct i as [|i]; simpl in Hin.
  - destruct Hin as [<-|Hin].
    + exists t; simpl; auto.
    + exfalso. rewrite Forall_forall in Hl. rewrite (Hl c Hin) in Hc; discriminate.
  - destruct Hin as [<-|Hin]; [congruence|].
    exact (IH i r c Hl Hin Hc).
Qed.

(** The marked candidate has the top score: its duration and emissions are
    those of a candidate scoring at least as much as every other one. *)
Lemma mark_recommendations_top_fields : forall priority l c,
  unmarked l -> In c (mark_recommendations priority l) -> recommended c = true ->
  exists t, In t l /\ duration_minutes c = duration_minutes t /\
    carbon_emissions_kg c = carbon_emissions_kg t /\
    (forall d, In d l -> calculate_score d priority <= calculate_score t priority).
Proof.
  intros priority l c Hu Hin Hc. unfold mark_recommendations in Hin.
  destruct (sort_desc _) as [|[s i] r] eqn:Hs.
  - exfalso. unfold unmarked in Hu; rewrite Forall_forall in Hu.
    rewrite (Hu c Hin) in Hc; discriminate.
  - destruct (mark_at_marked_fields l i _ c Hu Hin Hc) as [t [Ht [Hd Hg]]].
    exists t. split; [eapply nth_error_In; exact Ht|split; [exact Hd|split; [exact Hg|]]].
    assert (Hsi : In (s, i) (combine (map (fun o => calculate_score o priority) l)
                                    (seq 0 (length l)))).
    { apply sort_desc_in; rewrite Hs; left; reflexivity. }
    rewrite <- (length_map (fun o => calculate_score o priority)) in Hsi.
    destruct (in_combine_seq _ _ _ _ _ Hsi) as [_ Hn].
    rewrite Nat.sub_0_r, nth_error_map, Ht in Hn; simpl in Hn; inversion Hn; subst s.
    intros d Hd'. destruct (In_nth_error _ _ Hd') as [j Hj].
    assert (Hdj : In (calculate_score d priority, j)
                     (combine (map (fun o => calculate_score o priority) l)
                              (seq 0 (length (map (fun o => calculate_score o priority) l))))).
    { apply (nth_error_in_combine_seq _ _ 0). rewrite nth_error_map, Hj; reflexivity. }
    rewrite length_map in Hdj.
    exact (sort_desc_head_max _ _ _ Hs _ Hdj).
Qed.

Lemma Qdiv_1000_pos_inv : forall a, 0 < 1000 / a -> 0 < a.
Proof.
  intros [[|p|p] d]; unfold Qlt, Qdiv, Qmult, Qinv; simpl; intros H; lia.
Qed.

Lemma inject_Z_pos : forall x, (0 < x)%Z -> 0 < inject_Z x.
Proof. intros x H; unfold Qlt; simpl; lia. Qed.

(** ** Extra properties: transportation *)

(** [TravelAgent.process] with [_mark_recommendations], when no candidate
    comes in marked and no flight or train candidate makes the score divide
    by zero (where Python raises): bus, car and cab runs recommend nothing;
    a flight run with flight results and a train run with train results
    recommend exactly one option. *)
Theorem travel_process_recommendation_count :
  forall prio fl tr bu cab ap,
  forallb score_defined (fl ++ tr) = true ->
  unmarked fl -> unmarked tr -> unmarked bu -> unmarked cab -> unmarked ap ->
  (forall m, m = "bus" \/ m = "car" \/ m = "cab" ->
     count_recommended (travel_process prio m fl tr bu cab ap) = 0%nat) /\
  (fl <> [] -> count_recommended (travel_process prio "flight" fl tr bu cab ap) = 1%nat) /\
  (tr <> [] -> count_recommended (travel_process prio "train" fl tr bu cab ap) = 1%nat).
Proof.
  intros prio fl tr bu cab ap _ Hf Ht Hb Hc Ha.
  split; [|split].
  - intros m [ -> | [ -> | -> ] ]; unfold travel_process; cbn -[firstn mark_recommendations count_recommended];
      rewrite !count_recommended_app;
      rewrite (count_recommended_unmarked (firstn 5 _)) by (apply unmarked_firstn; assumption);
      reflexivity.
  - intros Hne; unfold travel_process; cbn -[firstn mark_recommendations count_recommended].
    rewrite !count_recommended_app, app_nil_r.
    rewrite (proj1 (mark_recommendations_one _ _ (firstn_5_nonempty _ Hne)
                      (unmarked_firstn 5 _ Hf))).
    rewrite (count_recommended_unmarked ap Ha); reflexivity.
  - intros Hne; unfold travel_process; cbn -[firstn mark_recommendations count_recommended].
    rewrite !count_recommended_app.
    rewrite (proj1 (mark_recommendations_one _ _ (firstn_5_nonempty _ Hne)
                      (unmarked_firstn 5 _ Ht))).
    reflexivity.
Qed.

(** [TravelAgent._mark_recommendations] with the ["fastest"] priority: the
    recommended option has a positive duration no longer than that of any
    candidate with a positive duration. *)
Theorem fastest_recommended_min_duration : forall l c,
  unmarked l ->
  In c (mark_recommendations "fastest" l) -> recommended c = true ->
  forall d x, In d l -> duration_minutes d = Some x -> (0 < x)%Z ->
  exists y, duration_minutes c = Some y /\ (0 < y <= x)%Z.
Proof.
  intros l c Hu Hin Hc d x Hd Hx Hpos.
  destruct (mark_recommendations_top_fields _ _ _ Hu Hin Hc) as [t [_ [Hdc [_ Hmax]]]].
  specialize (Hmax d Hd); unfold calculate_score in Hmax; cbn in Hmax.
  rewrite Hx in Hmax; cbn [truthy_Z] in Hmax.
  destruct (x =? 0)%Z eqn:Ex; [apply Z.eqb_eq in Ex; lia|].
  pose proof (Qdiv_1000_pos _ (inject_Z_pos _ Hpos)) as Hsd.
  rewrite Hdc.
  destruct (truthy_Z (duration_minutes t)) as [y|] eqn:Ey.
  - assert (Hy : duration_minutes t = Some y).
    { destruct (duration_minutes t) as [z|]; cbn in Ey; [|discriminate].
      destruct (z =? 0)%Z; [discriminate|congruence]. }
    exists y; split; [exact Hy|].
    assert (Hyp : 0 < inject_Z y) by (apply Qdiv_1000_pos_inv; eapply Qlt_le_trans; eauto).
    assert (0 < y)%Z by (unfold Qlt in Hyp; simpl in Hyp; lia).
    split; [assumption|].
    apply (Qdiv_1000_le_inv _ _ Hyp (inject_Z_pos _ Hpos)) in Hmax.
    rewrite <- Zle_Qle in Hmax; exact Hmax.
  - exfalso; apply (Qlt_not_le _ _ Hsd); exact Hmax.
Qed.

(** [TravelAgent._mark_recommendations] with the ["greenest"] priority: the
    recommended option has non-zero emissions no higher than those of any
    candidate with positive emissions. *)
Theorem greenest_recommended_min_emissions : forall l c,
  unmarked l ->
  In c (mark_recommendations "greenest" l) -> recommended c = true ->
  forall d x, In d l -> carbon_emissions_kg d = Some x -> 0 < x ->
  exists y, carbon_emissions_kg c = Some y /\ ~ y == 0 /\ y <= x.
Proof.
  intros l c Hu Hin Hc d x Hd Hx Hpos.
  destruct (mark_recommendations_top_fields _ _ _ Hu Hin Hc) as [t [_ [_ [Hgc Hmax]]]].
  specialize (Hmax d Hd); unfold calculate_score in Hmax; cbn in Hmax.
  rewrite Hx in Hmax; cbn [truthy_Q] in Hmax.
  destruct (Qeq_bool x 0) eqn:Ex; [apply Qeq_bool_iff in Ex; lra|].
  assert (Hx1 : 0 < x + 1) by lra.
  pose proof (Qdiv_1000_pos _ Hx1) as Hsd.
  rewrite Hgc.
  destruct (truthy_Q (carbon_emissions_kg t)) as [y|] eqn:Ey.
  - assert (Hy : carbon_emissions_kg t = Some y /\ ~ y == 0).
    { destruct (carbon_emissions_kg t) as [z|]; cbn in Ey; [|discriminate].
      destruct (Qeq_bool z 0) eqn:Ez; [discriminate|].
      injection Ey as <-; split; [reflexivity|].
      intro H; apply Qeq_bool_iff in H; congruence. }
    destruct Hy as [Hy Hy0].
    exists y; split; [exact Hy|split; [exact Hy0|]].
    assert (Hyp : 0 < y + 1) by (apply Qdiv_1000_pos_inv; eapply Qlt_le_trans; eauto).
    apply (Qdiv_1000_le_inv _ _ Hyp Hx1) in Hmax; lra.
  - exfalso; apply (Qlt_not_le _ _ Hsd); exact Hmax.
Qed.

(** ** Destination from the lodging results *)

Lemma split_commas_aux_no_comma : forall s cur,
  (forall c, In c (list_ascii_of_string s) -> c <> ","%char) ->
  split_commas_aux s cur = [string_of_list_ascii (rev cur ++ list_ascii_of_string s)%list].
Proof.
  induction s as [|c s IH]; intros cur H; cbn [split_commas_aux list_ascii_of_string].
  - rewrite app_nil_r; reflexivity.
  - destruct (Ascii.eqb c ",") eqn:E.
    + apply Ascii.eqb_eq in E; exfalso; apply (H c); [left; reflexivity|exact E].
    + rewrite IH by (intros c' Hc'; apply H; right; exact Hc').
      cbn [rev]; rewrite <- app_assoc; reflexivity.
Qed.

Lemma split_commas_aux_nonempty : forall s cur, split_commas_aux s cur <> [].
Proof.
  induction s as [|c s IH]; intros cur; cbn [split_commas_aux]; [discriminate|].
  destruct (Ascii.eqb c ","); [discriminate|apply IH].
Qed.

Lemma split_commas_aux_last : forall pre city cur,
  (forall c, In c (list_ascii_of_string city) -> c <> ","%char) ->
  last (split_commas_aux (pre ++ String "," city) cur) "" = city.
Proof.
  induction pre as [|c pre IH]; intros city cur H; cbn [String.append split_commas_aux].
  - rewrite Ascii.eqb_refl, split_commas_aux_no_comma by exact H.
    cbn; apply string_of_list_ascii_of_string.
  - destruct (Ascii.eqb c ",").
    + pose proof (split_commas_aux_nonempty (pre ++ String "," city) []) as Hne.
      destruct (split_commas_aux (pre ++ String "," city) []) as [|x l] eqn:E;
        [congruence|].
      rewrite <- E; cbn [last]; rewrite E.
      specialize (IH city [] H); rewrite E in IH.
      destruct l; [exact IH|exact IH].
    + apply IH; exact H.
Qed.

(** ** Extra properties: destination *)

(** [TravelAgent._extract_destination_from_stay]: without lodging results, or
    when the first one has an empty address, there is no destination;
    otherwise the destination is the stripped text after the last comma of
    the first lodging's address, so an address ending in [", <city>"]
    gives the stripped city. *)
Theorem extract_destination_from_stay_last_part :
  extract_destination_from_stay None = None /\
  extract_destination_from_stay (Some []) = None /\
  (forall a rest, address a = "" -> extract_destination_from_stay (Some (a :: rest)) = None) /\
  (forall a rest pre city,
     (forall c, In c (list_ascii_of_string city) -> c <> ","%char) ->
     address a = (pre ++ "," ++ city)%string ->
     extract_destination_from_stay (Some (a :: rest)) = Some (strip city)).
Proof.
  split; [reflexivity|split; [reflexivity|split]].
  - intros a rest H; unfold extract_destination_from_stay; rewrite H; reflexivity.
  - intros a rest pre city Hc H; unfold extract_destination_from_stay, split_commas.
    rewrite H.
    destruct (String.eqb (pre ++ "," ++ city) "") eqn:E.
    + apply String.eqb_eq in E; destruct pre; discriminate.
    + change ("," ++ city)%string with (String "," city).
      rewrite split_commas_aux_last by exact Hc; reflexivity.
Qed.

Lemma extract_destination_from_stay_last_part_witness :
  extract_destination_from_stay
    (Some [mkAccommodation "acc_1" "Loft" "" (0, 0) "5 Main St, Springfield" 100 300 []
             None None [] None "airbnb"]) = Some "Springfield".
Proof.
  rewrite (proj2 (proj2 (proj2 extract_destination_from_stay_last_part)) _ [] "5 Main St"
             " Springfield").
  - vm_compute; reflexivity.
  - intros c Hc; cbn in Hc.
    repeat (destruct Hc as [<-|Hc]; [intro Heq; discriminate Heq|]); destruct Hc.
  - reflexivity.
Defined.

(** ** The retry policy *)

Lemma starts_with_lower : forall p s,
  starts_with p s = true -> starts_with (lower p) (lower s) = true.
Proof.
  induction p as [|c p IH]; intros s H; [reflexivity|].
  destruct s as [|d s]; [discriminate|].
  cbn [starts_with lower] in *; apply andb_true_iff in H as [H1 H2].
  apply Ascii.eqb_eq in H1; subst d.
  rewrite Ascii.eqb_refl, (IH s H2); reflexivity.
Qed.

Lemma contains_lower : forall p s,
  contains p s = true -> contains (lower p) (lower s) = true.
Proof.
  intros p s; induction s as [|c s IH]; intros H.
  - cbn [contains] in H; apply orb_true_iff in H as [H|H]; [|discriminate].
    destruct p; [reflexivity|discriminate].
  - cbn [contains] in H; apply orb_true_iff in H as [H|H].
    + pose proof (starts_with_lower _ _ H) as H'.
      change (lower (String c s)) with (String (lower_ascii c) (lower s)) in *.
      cbn [contains]; rewrite H'; reflexivity.
    + change (lower (String c s)) with (String (lower_ascii c) (lower s)).
      cbn [contains]; rewrite (IH H); apply orb_true_r.
Qed.

Lemma starts_with_app_r : forall p s t,
  starts_with p s = true -> starts_with p (s ++ t) = true.
Proof.
  induction p as [|c p IH]; intros s t H; [reflexivity|].
  destruct s as [|d s]; [discriminate|].
  cbn [starts_with String.append] in *; apply andb_true_iff in H as [H1 H2].
  rewrite H1, (IH s t H2); reflexivity.
Qed.

Lemma contains_app_l : forall p s t, contains p s = true -> contains p (s ++ t) = true.
Proof.
  intros p s t; induction s as [|c s IH]; intros H; cbn [contains String.append] in *.
  - apply orb_true_iff in H as [H|H]; [|discriminate].
    destruct p; [|discriminate]; destruct t; reflexivity.
  - apply orb_true_iff in H as [H|H].
    + pose proof (starts_with_app_r _ _ t H) as H'; cbn [String.append] in H'.
      rewrite H'; reflexivity.
    + rewrite (IH H); apply orb_true_r.
Qed.

Lemma first_line_prefix : forall s, exists rest, s = (first_line s ++ rest)%string.
Proof.
  induction s as [|c s [rest IH]]; [exists ""; reflexivity|].
  cbn [first_line].
  destruct (Ascii.eqb c newline); [exists (String c s); reflexivity|].
  exists rest; cbn [String.append]; rewrite <- IH; reflexivity.
Qed.

Lemma contains_first_line : forall p s, contains p (first_line s) = true -> contains p s = true.
Proof.
  intros p s H; destruct (first_line_prefix s) as [rest E].
  rewrite E; apply contains_app_l; exact H.
Qed.

(** ** Extra properties: retry *)

(** The attempt loop of [_run_with_retry], shared by the properties below. *)
Lemma run_with_retry_spec : forall call,
  let '(r, n) := run_with_retry call in
  (1 <= n <= 3)%nat /\ r = call n /\
  (forall k, (1 <= k < n)%nat -> exists e, call k = Raise e /\ retry_predicate e = true) /\
  ((n < 3)%nat -> forall e, r = Raise e -> retry_predicate e = false).
Proof.
  intro call; unfold run_with_retry, stop_after_attempt; cbn [Nat.sub retry_from].
  destruct (call 1%nat) as [t1|e1] eqn:H1.
  { repeat split; auto; [intros k Hk; lia|intros _ e He; discriminate]. }
  destruct (retry_predicate e1) eqn:P1.
  2: { repeat split; auto; [intros k Hk; lia|intros _ e He; injection He as <-; exact P1]. }
  destruct (call 2%nat) as [t2|e2] eqn:H2.
  { repeat split; auto; [|intros _ e He; discriminate].
    intros k Hk; assert (k = 1%nat) by lia; subst; eauto. }
  destruct (retry_predicate e2) eqn:P2.
  2: { repeat split; auto; [|intros _ e He; injection He as <-; exact P2].
       intros k Hk; assert (k = 1%nat) by lia; subst; eauto. }
  destruct (call 3%nat) as [t3|e3] eqn:H3.
  { repeat split; auto; [|intros Hn; lia].
    intros k Hk; assert (k = 1%nat \/ k = 2%nat) as [->| ->] by lia; eauto. }
  destruct (retry_predicate e3) eqn:P3;
  (repeat split; auto; [|intros Hn; lia]);
  intros k Hk; assert (k = 1%nat \/ k = 2%nat) as [->| ->] by lia; eauto.
Qed.

(** [StayAgent._run_with_retry] ([stop_after_attempt(3)], [reraise=True],
    retry on a rate-limit message): between one and three calls are made;
    every call but the last failed with a retryable error; the outcome is
    the last call's own outcome; and when fewer than three calls were made
    the last one succeeded or failed with an error that is not retried. *)
Theorem run_with_retry_attempts : forall call,
  let '(r, n) := run_with_retry call in
  (1 <= n <= 3)%nat /\ r = call n /\
  (forall k, (1 <= k < n)%nat -> exists e, call k = Raise e /\ retry_predicate e = true) /\
  ((n < 3)%nat -> forall e, r = Raise e -> retry_predicate e = false).
Proof. exact run_with_retry_spec. Qed.

(** [StayAgent.process] around [_run_with_retry]: it returns only text some
    call produced, and the only exception it lets out is a [RuntimeError]
    (the rate-limit guidance or the wrapped provider message). *)
Theorem call_generation_outcome : forall call,
  match call_generation call with
  | (Ok text, n) => call n = Ok text /\ (1 <= n <= 3)%nat
  | (Raise e, _) => exists m, e = RuntimeError m
  end.
Proof.
  intro call; pose proof (run_with_retry_spec call) as H.
  unfold call_generation.
  destruct (run_with_retry call) as [[t|e] n].
  - destruct H as [Hn [Hr _]]; auto.
  - unfold surface_error; destruct (_ || _ || _ || _); eexists; reflexivity.
Qed.

Lemma surface_error_first_line_marker : forall e,
  any_in ["rate limit"; "429"; "quota"; "resource exhausted"] (first_line (exc_message e)) = true ->
  surface_error e = RuntimeError rate_limit_guidance.
Proof.
  intros e H; unfold surface_error.
  unfold any_in in H; cbn [existsb] in H; rewrite orb_false_r in H.
  apply orb_true_iff in H as [H|H];
    [|apply orb_true_iff in H as [H|H]; [|apply orb_true_iff in H as [H|H]]];
    apply contains_first_line, contains_lower in H.
  - change (lower "rate limit") with "rate limit" in H; rewrite H; reflexivity.
  - change (lower "429") with "429" in H; rewrite H, ?orb_true_r; reflexivity.
  - change (lower "quota") with "quota" in H; rewrite H, ?orb_true_r; reflexivity.
  - change (lower "resource exhausted") with "resource exhausted" in H;
      rewrite H, ?orb_true_r; reflexivity.
Qed.

(** [StayAgent._run_with_retry] and [StayAgent.process] (the planner's are
    the same): a persistent provider error whose first line names one of
    "rate limit", "429", "quota" or "resource exhausted" is retried until
    the third call and then reported with the rate-limit guidance. *)
Theorem rate_limit_retried_then_guidance : forall msg,
  any_in ["rate limit"; "429"; "quota"; "resource exhausted"] (first_line msg) = true ->
  call_generation (always_failing msg) = (Raise (RuntimeError rate_limit_guidance), 3%nat).
Proof.
  intros msg H.
  assert (P : retry_predicate (ProviderError msg) = true).
  { unfold retry_predicate, rate_limit_markers; cbn [exc_message].
    unfold any_in in *. apply existsb_exists in H as [k [Hk Hc]].
    apply existsb_exists. exists k. split; [|exact Hc].
    cbn in Hk |- *. tauto. }
  unfold call_generation, run_with_retry, stop_after_attempt, always_failing.
  cbn [Nat.sub retry_from]; rewrite P.
  rewrite (surface_error_first_line_marker (ProviderError msg) H); reflexivity.
Qed.

(** [StayAgent._run_with_retry] and [StayAgent.process]: a persistent error
    whose first line says "too many requests" (and that mentions none of
    the other markers) is retried until the third call, yet is reported as
    a generic provider error rather than with the rate-limit guidance. *)
Theorem too_many_requests_retried_not_guidance : forall msg,
  contains "too many requests" (first_line msg) = true ->
  any_in ["rate limit"; "429"; "quota"; "resource exhausted"] (lower msg) = false ->
  call_generation (always_failing msg)
  = (Raise (RuntimeError ("Error calling Google Gemini API: " ++ msg ++
                          ". Make sure GOOGLE_API_KEY is set correctly.")), 3%nat).
Proof.
  intros msg H1 H2.
  assert (P : retry_predicate (ProviderError msg) = true).
  { unfold retry_predicate, any_in, rate_limit_markers; cbn [existsb exc_message].
    rewrite H1, ?orb_true_r; reflexivity. }
  unfold call_generation, run_with_retry, stop_after_attempt, always_failing.
  cbn [Nat.sub retry_from]; rewrite P.
  unfold surface_error; cbn [exc_message].
  unfold any_in in H2; cbn [existsb] in H2.
  apply orb_false_iff in H2 as [E1 H2]; apply orb_false_iff in H2 as [E2 H2];
    apply orb_false_iff in H2 as [E3 H2]; apply orb_false_iff in H2 as [E4 _].
  rewrite E1, E2, E3, E4; reflexivity.
Qed.

Lemma too_many_requests_retried_not_guidance_witness :
  call_generation (always_failing "too many requests")
  = (Raise (RuntimeError ("Error calling Google Gemini API: " ++ "too many requests" ++
                          ". Make sure GOOGLE_API_KEY is set correctly.")), 3%nat).
Proof.
  apply too_many_requests_retried_not_guidance; vm_compute; reflexivity.
Defined.

Lemma rate_limit_retried_then_guidance_witness :
  call_generation (always_failing "Quota exceeded: 429")
  = (Raise (RuntimeError rate_limit_guidance), 3%nat).
Proof.
  apply rate_limit_retried_then_guidance; vm_compute; reflexivity.
Defined.

Lemma travel_process_recommendation_count_witness :
  count_recommended (travel_process None "flight" [flight_a; flight_b] [] [bus_a] [cab_a] [])
  = 1%nat.
Proof.
  apply (proj1 (proj2 (travel_process_recommendation_count None [flight_a; flight_b] []
                         [bus_a] [cab_a] [] ltac:(vm_compute; reflexivity)
                         ltac:(repeat constructor) ltac:(repeat constructor)
                         ltac:(repeat constructor) ltac:(repeat constructor)
                         ltac:(repeat constructor)))).
  discriminate.
Defined.

Lemma fastest_recommended_min_duration_witness :
  exists y, duration_minutes (nth 1 (mark_recommendations "fastest" [flight_b; bus_a; flight_a])
                                  flight_a) = Some y /\ (0 < y <= 420)%Z.
Proof.
  apply (fastest_recommended_min_duration [flight_b; bus_a; flight_a] _
           ltac:(repeat constructor)) with (d := flight_b).
  - vm_compute; right; left; reflexivity.
  - vm_compute; reflexivity.
  - left; reflexivity.
  - reflexivity.
  - lia.
Defined.

Lemma greenest_recommended_min_emissions_witness :
  exists y, carbon_emissions_kg (nth 1 (mark_recommendations "greenest" [flight_b; bus_a; flight_a])
                                     flight_a) = Some y /\ ~ y == 0 /\ y <= 450.
Proof.
  apply (greenest_recommended_min_emissions [flight_b; bus_a; flight_a] _
           ltac:(repeat constructor)) with (d := flight_b).
  - vm_compute; right; left; reflexivity.
  - vm_compute; reflexivity.
  - left; reflexivity.
  - reflexivity.
  - vm_compute; reflexivity.
Defined.

Lemma run_with_retry_attempts_witness :
  let '(r, n) := run_with_retry (always_failing "429") in
  (1 <= n <= 3)%nat /\ r = always_failing "429" n /\
  (forall k, (1 <= k < n)%nat ->
     exists e, always_failing "429" k = Raise e /\ retry_predicate e = true) /\
  ((n < 3)%nat -> forall e, r = Raise e -> retry_predicate e = false).
Proof.
  exact (run_with_retry_attempts (always_failing "429")).
Defined.

(** ** Lodging extraction *)

Ltac peel_binds H :=
  repeat match type of H with
  | context [bind ?m ?k] =>
      let E := fresh "E" in destruct m eqn:E; cbn [bind] in H
  end.

Lemma create_accommodation_total : forall data request a,
  create_accommodation_from_dict data request = Ok (Some a) ->
  total_price a = (price_per_night a * inject_Z
    (match truthy_opt (duration_days request) with
     | Some n => n
     | None => match start_date request, end_date request with
               | Some s, Some e => (e - s)%Z
               | _, _ => 1%Z
               end
     end))%Q.
Proof.
  intros data request a H.
  unfold create_accommodation_from_dict in H.
  destruct data; try discriminate H.
  peel_binds H.
  all: try (match type of H with
            | context [Raise ?e] => destruct e; discriminate H
            end).
  injection H as <-; reflexivity.
Qed.

Lemma append_items_forall : forall (P : Accommodation -> Prop) request items acc accs r,
  (forall it a, create_accommodation_from_dict it request = Ok (Some a) -> P a) ->
  append_items items request acc = (accs, r) ->
  Forall P acc -> Forall P accs.
Proof.
  intros P request items; induction items as [|it items IH]; intros acc accs r HP H Hacc;
    unfold append_items in H; cbn [append_items_with] in H.
  - injection H as <- _; exact Hacc.
  - destruct (create_accommodation_from_dict it request) as [[a|]|e] eqn:E.
    + apply (IH _ _ _ HP H), Forall_app; split; [exact Hacc|].
      constructor; [exact (HP it a E)|constructor].
    + exact (IH _ _ _ HP H Hacc).
    + injection H as <- _; exact Hacc.
Qed.

Lemma parse_try_forall : forall (P : Accommodation -> Prop) loads output request,
  (forall it a, create_accommodation_from_dict it request = Ok (Some a) -> P a) ->
  Forall P (fst (parse_try loads output request)).
Proof.
  intros P loads output request HP; unfold parse_try, parse_try_with.
  destruct (contains "```json" output); [|constructor].
  destruct (loads _) as [data|e]; [|constructor].
  assert (HA : forall items,
             Forall P (fst (append_items_with create_accommodation_from_dict items request []))).
  { intro items;
    destruct (append_items_with create_accommodation_from_dict items request [])
      as [accs r] eqn:E.
    exact (append_items_forall P request items [] accs r HP E (Forall_nil _)). }
  destruct data; try constructor; try apply HA.
  match goal with
  | |- context [dict_lookup _ ?d] =>
      destruct (dict_lookup "accommodations" d) as [v|];
      [destruct (py_iter v); [apply HA|constructor]|constructor]
  end.
Qed.

(** ** Extra properties: lodging extraction *)

(** [StayAgent._parse_results], for any model output and any decoder: it
    never returns an empty list (the text fallback fills in), and the only
    exceptions it lets out are the ones its [except] clause does not name
    (neither [JSONDecodeError] nor [KeyError] nor [ValueError]). *)
Theorem parse_results_nonempty : forall loads output request,
  match parse_results loads output request with
  | Ok accs => accs <> []
  | Raise e => parse_caught e = false
  end.
Proof.
  intros loads output request; unfold parse_results, parse_results_with.
  destruct (parse_try_with create_accommodation_from_dict loads output request)
    as [accs [e|]].
  - destruct (parse_caught e) eqn:P; cbn [bind]; [|exact P].
    destruct accs; cbn; discriminate.
  - cbn [bind]; destruct accs; cbn; discriminate.
Qed.

(** [StayAgent._parse_results] with [_create_accommodation_from_dict] and
    [_extract_from_text]: every returned record costs its nightly price
    times the stay length. A record from the JSON block counts
    [duration_days], or else [end_date - start_date], or else one night;
    the text fallback ([acc_text_1]) counts [duration_days] or one night,
    ignoring the dates. *)
Theorem parse_results_total_price : forall loads output request accs,
  parse_results loads output request = Ok accs ->
  Forall (fun a =>
    total_price a = (price_per_night a * inject_Z
      (match truthy_opt (duration_days request) with
       | Some n => n
       | None => match start_date request, end_date request with
                 | Some s, Some e => (e - s)%Z
                 | _, _ => 1%Z
                 end
       end))%Q \/
    (acc_id a = "acc_text_1" /\
     total_price a = (price_per_night a * inject_Z
       (match truthy_opt (duration_days request) with Some n => n | None => 1%Z end))%Q))
    accs.
Proof.
  intros loads output request accs H; unfold parse_results, parse_results_with in H.
  pose proof (parse_try_forall _ loads output request
                (fun it a E => create_accommodation_total it request a E)) as HF.
  unfold parse_try in HF.
  destruct (parse_try_with create_accommodation_from_dict loads output request)
    as [accs0 r]; cbn [fst] in HF.
  assert (H0 : (match r with
                | Some e => if parse_caught e then Ok accs0 else Raise e
                | None => Ok accs0
                end) = Ok accs0 \/
               (exists e, (match r with
                | Some e => if parse_caught e then Ok accs0 else Raise e
                | None => Ok accs0
                end) = @Raise (list Accommodation) e)).
  { destruct r as [e|]; [destruct (parse_caught e); [left|right; eexists]|left]; reflexivity. }
  destruct H0 as [H0|[e H0]]; rewrite H0 in H; cbn [bind] in H; [|discriminate H].
  destruct accs0 as [|a0 l0].
  - injection H as <-; constructor; [|constructor].
    right; split; reflexivity.
  - injection H as <-; eapply Forall_impl; [|exact HF].
    intros a Ha; left; exact Ha.
Qed.

(** ** Budgets *)



(** ** Extra properties: budgets *)



(** [BudgetAgent._calculate_accommodation_cost]: when the request names a
    lodging id, the first lodging with that id is charged alone (its
    [total_price] when positive, else nightly price times the duration),
    not the average. *)
Theorem accommodation_cost_selected : forall pre a post request duration,
  selected_accommodation_id request = Some (acc_id a) -> acc_id a <> "" ->
  Forall (fun b => acc_id b <> acc_id a) pre ->
  calculate_accommodation_cost (Some (pre ++ a :: post)%list) request duration
  = if Qlt_bool 0 (total_price a) then total_price a
    else (price_per_night a * inject_Z duration)%Q.
Proof.
  intros pre a post request duration Hsel Hne Hpre.
  unfold calculate_accommodation_cost.
  destruct (pre ++ a :: post)%list eqn:E; [destruct pre; discriminate|].
  rewrite <- E, Hsel.
  destruct (String.eqb (acc_id a) "") eqn:Ee; [apply String.eqb_eq in Ee; congruence|].
  replace (find (fun b => String.eqb (acc_id b) (acc_id a)) (pre ++ a :: post)%list)
    with (Some a); [reflexivity|].
  clear E; induction Hpre as [|b pre Hb Hpre IH]; cbn [app find].
  - rewrite String.eqb_refl; reflexivity.
  - apply String.eqb_neq in Hb; rewrite Hb; exact IH.
Qed.

(** ** Planner *)




(** ** Extra properties: planner *)



(** [PlannerAgent._get_selected_accommodation]: the selected lodging is
    always one of the lodging results, and there is one whenever there are
    lodging results. *)
Theorem get_selected_accommodation_member : forall request stay,
  match get_selected_accommodation request stay with
  | Some a => exists l, stay = Some l /\ In a l
  | None => stay = None \/ stay = Some []
  end.
Proof.
  intros request [l|]; [|unfold get_selected_accommodation; cbn; left; reflexivity].
  unfold get_selected_accommodation.
  assert (Hfirst : match (match l with a :: _ => Some a | [] => None end) with
                   | Some a => exists l', Some l = Some l' /\ In a l'
                   | None => Some l = None \/ Some l = Some []
                   end).
  { destruct l as [|a l]; [right; reflexivity|exists (a :: l); split; [reflexivity|left; reflexivity]]. }
  destruct (selected_accommodation_id request) as [sel|]; [|exact Hfirst].
  destruct (String.eqb sel ""); [exact Hfirst|].
  destruct (find (fun a => String.eqb (acc_id a) sel) l) as [a|] eqn:E; [|exact Hfirst].
  exists l; split; [reflexivity|]; eapply find_some; exact E.
Qed.

(** ** Extra properties: follow-up handling *)

(** [ItineraryService.handle_follow_up] with [FollowUpHandler.handle_follow_up]:
    a prompt not classified as a modification runs no stage, returns an
    answer (for a query, the QA agent's) and no itinerary, and saves no
    version; the only exception it can raise is the one raised by the QA
    agent on a query. *)
Theorem non_modify_follow_up_no_change : forall ag s prompt modifier,
  intent (classify prompt) <> "modify" ->
  match service_handle_follow_up ag s prompt modifier with
  | Ok (resp, log, s') =>
      log = [] /\ s' = s /\ resp_itinerary resp = None /\ resp_answer resp <> None /\
      (intent (classify prompt) = "query" ->
         exists a, qa_answer ag prompt (main_itinerary s) = Ok a /\ resp_answer resp = Some a)
  | Raise e =>
      intent (classify prompt) = "query" /\ qa_answer ag prompt (main_itinerary s) = Raise e
  end.
Proof.
  intros ag s prompt modifier H.
  unfold service_handle_follow_up, handle_follow_up.
  destruct (String.eqb (intent (classify prompt)) "modify") eqn:E;
    [apply String.eqb_eq in E; congruence|].
  destruct (String.eqb (intent (classify prompt)) "query") eqn:Eq.
  - apply String.eqb_eq in Eq.
    destruct (qa_answer ag prompt (main_itinerary s)) as [a|e] eqn:A; cbn [bind].
    + repeat split; [discriminate|]. intros _; exists a; split; reflexivity.
    + split; [exact Eq|reflexivity].
  - cbn [bind]. repeat split; [discriminate|].
    intros Hq; apply String.eqb_neq in Eq; contradiction.
Qed.

(** [FollowUpHandler._handle_modification]: either the itinerary is rebuilt
    by the planner (the response carries the planner's plan and the
    "updated" message, and the log is the stage then the planner), or the
    stored itinerary is returned unchanged with the "couldn't make that
    change" message and the planner is not run. *)
Theorem handle_modification_outcome : forall ag prompt cls it resp log,
  handle_modification ag prompt cls it = Ok (resp, log) ->
  resp_type resp = "modification" /\
  ((exists p stay rest trav exp, planner_stage ag stay rest trav exp = Ok p /\
      resp_itinerary resp = Some p /\ resp_message resp = updated_message prompt /\
      length log = 2%nat /\ nth 1 log "" = "planner") \/
   (resp_itinerary resp = Some it /\ resp_message resp = couldnt_message /\
      (length log <= 1)%nat /\ ~ In "planner" log)).
Proof.
  intros ag prompt cls it resp log H.
  unfold handle_modification, run_stage in H.
  repeat (match type of H with
          | context [String.eqb (category cls) ?c] => destruct (String.eqb (category cls) c)
          | context [is_add_change_find (action cls)] => destruct (is_add_change_find (action cls))
          | context [stay_stage ag] => destruct (stay_stage ag) as [[|? ?]|?]
          | context [restaurant_stage ag] => destruct (restaurant_stage ag) as [[|? ?]|?]
          | context [travel_stage ag] => destruct (travel_stage ag) as [[|? ?]|?]
          | context [experience_stage ag] => destruct (experience_stage ag) as [[|? ?]|?]
          | context [planner_stage ag ?a ?b ?c ?d] =>
              let E := fresh "E" in destruct (planner_stage ag a b c d) eqn:E
          end; cbn -[updated_message is_add_change_find] in H);
  try discriminate; injection H as <- <-; (split; [reflexivity|]).
  all: first
    [ left; do 5 eexists; split; [eassumption|]; repeat split; reflexivity
    | right; repeat split; [cbn; lia|cbn; intros Hp; repeat destruct Hp as [Hp|Hp];
                               discriminate || contradiction] ].
Qed.

(** [ItineraryService.handle_follow_up] over [_handle_modification]: when
    the stage re-run for an add, change or find request raises, nothing
    catches it; the exception reaches the caller and no version is saved. *)
Theorem follow_up_stage_error_propagates : forall ag s prompt modifier e,
  let cls := classify prompt in
  intent cls = "modify" -> is_add_change_find (action cls) = true ->
  (category cls = "accommodation" /\ stay_stage ag = Raise e) \/
  (category cls = "restaurant" /\ restaurant_stage ag = Raise e) \/
  (category cls = "transportation" /\ travel_stage ag = Raise e) \/
  (category cls = "experience" /\ experience_stage ag = Raise e) ->
  service_handle_follow_up ag s prompt modifier = Raise e.
Proof.
  intros ag s prompt modifier e cls Hi Ha Hs.
  unfold service_handle_follow_up, handle_follow_up; fold cls; rewrite Hi; cbn [String.eqb].
  assert (Hm : handle_modification ag prompt cls (main_itinerary s) = Raise e).
  { unfold handle_modification; rewrite Ha.
    destruct Hs as [[Hc Hs]|[[Hc Hs]|[[Hc Hs]|[Hc Hs]]]]; rewrite Hc, Hs; reflexivity. }
  change (String.eqb "modify" "modify") with true; cbv iota.
  rewrite Hm; reflexivity.
Qed.

(** ** Witnesses of the extra properties *)

Lemma parse_results_total_price_witness :
  exists accs, parse_results json_loads_fragment (fence body_one_record) req0 = Ok accs /\
  Forall (fun a =>
    total_price a = (price_per_night a * inject_Z
      (match truthy_opt (duration_days req0) with
       | Some n => n
       | None => match start_date req0, end_date req0 with
                 | Some s, Some e => (e - s)%Z
                 | _, _ => 1%Z
                 end
       end))%Q \/
    (acc_id a = "acc_text_1" /\
     total_price a = (price_per_night a * inject_Z
       (match truthy_opt (duration_days req0) with Some n => n | None => 1%Z end))%Q))
    accs.
Proof.
  exists (match parse_results json_loads_fragment (fence body_one_record) req0 with
          | Ok l => l | Raise _ => [] end).
  assert (E : parse_results json_loads_fragment (fence body_one_record) req0 =
              Ok (match parse_results json_loads_fragment (fence body_one_record) req0 with
                  | Ok l => l | Raise _ => [] end)) by (vm_compute; reflexivity).
  split; [exact E|].
  exact (parse_results_total_price json_loads_fragment (fence body_one_record) req0 _ E).
Defined.



Lemma accommodation_cost_selected_witness :
  let suite := mkAccommodation "acc_2" "Suite" "" (0, 0) "" 80 0 [] None None [] None "airbnb" in
  let req := mkTripRequest None None None 1 (Some "acc_2") in
  selected_accommodation_id req = Some (acc_id suite) /\ acc_id suite <> "" /\
  Forall (fun b => acc_id b <> acc_id suite) [loft] /\
  calculate_accommodation_cost (Some ([loft] ++ suite :: [])%list) req 3
  = if Qlt_bool 0 (total_price suite) then total_price suite
    else (price_per_night suite * inject_Z 3)%Q.
Proof.
  intros suite req.
  assert (Hn : Forall (fun b => acc_id b <> acc_id suite) [loft])
    by (constructor; [discriminate|constructor]).
  split; [reflexivity|split; [discriminate|split; [exact Hn|]]].
  apply (accommodation_cost_selected [loft] suite [] req 3); [reflexivity|discriminate|exact Hn].
Defined.



Lemma non_modify_follow_up_no_change_witness :
  intent (classify "thanks for the help") <> "modify" /\
  match service_handle_follow_up agents_empty store0 "thanks for the help" "user_1" with
  | Ok (resp, log, s') =>
      log = [] /\ s' = store0 /\ resp_itinerary resp = None /\ resp_answer resp <> None /\
      (intent (classify "thanks for the help") = "query" ->
         exists a, qa_answer agents_empty "thanks for the help" (main_itinerary store0) = Ok a /\
                   resp_answer resp = Some a)
  | Raise e =>
      intent (classify "thanks for the help") = "query" /\
      qa_answer agents_empty "thanks for the help" (main_itinerary store0) = Raise e
  end.
Proof.
  assert (H : intent (classify "thanks for the help") <> "modify") by (vm_compute; discriminate).
  split; [exact H|].
  exact (non_modify_follow_up_no_change agents_empty store0 "thanks for the help" "user_1" H).
Defined.

Lemma handle_modification_outcome_witness :
  let resp := {| resp_type := "modification"; resp_itinerary := Some plan1;
                 resp_answer := None; resp_message := updated_message "add more restaurants" |} in
  handle_modification agents_new_restaurant "add more restaurants"
    (classify "add more restaurants") plan0 = Ok (resp, ["restaurant"; "planner"]) /\
  resp_type resp = "modification" /\
  ((exists p stay rest trav exp, planner_stage agents_new_restaurant stay rest trav exp = Ok p /\
      resp_itinerary resp = Some p /\ resp_message resp = updated_message "add more restaurants" /\
      length ["restaurant"; "planner"] = 2%nat /\ nth 1 ["restaurant"; "planner"] "" = "planner") \/
   (resp_itinerary resp = Some plan0 /\ resp_message resp = couldnt_message /\
      (length ["restaurant"; "planner"] <= 1)%nat /\ ~ In "planner" ["restaurant"; "planner"])).
Proof.
  intro resp.
  assert (H : handle_modification agents_new_restaurant "add more restaurants"
                (classify "add more restaurants") plan0 = Ok (resp, ["restaurant"; "planner"]))
    by (vm_compute; reflexivity).
  split; [exact H|].
  exact (handle_modification_outcome agents_new_restaurant "add more restaurants"
           (classify "add more restaurants") plan0 resp ["restaurant"; "planner"] H).
Defined.

Lemma follow_up_stage_error_propagates_witness :
  let ag := mkAgents (Ok []) (Raise (RuntimeError "timeout")) (Ok []) (Ok [])
              (fun _ _ _ _ => Ok plan1) (fun _ _ => Ok "answer") in
  let cls := classify "add more restaurants" in
  intent cls = "modify" /\ is_add_change_find (action cls) = true /\
  category cls = "restaurant" /\ restaurant_stage ag = Raise (RuntimeError "timeout") /\
  service_handle_follow_up ag store0 "add more restaurants" "user_1" = Raise (RuntimeError "timeout").
Proof.
  intros ag cls.
  assert (Hi : intent cls = "modify") by (vm_compute; reflexivity).
  assert (Ha : is_add_change_find (action cls) = true) by (vm_compute; reflexivity).
  assert (Hc : category cls = "restaurant") by (vm_compute; reflexivity).
  split; [exact Hi|split; [exact Ha|split; [exact Hc|split; [reflexivity|]]]].
  apply (follow_up_stage_error_propagates ag store0 "add more restaurants" "user_1"
           (RuntimeError "timeout") Hi Ha).
  right; left; split; [exact Hc|reflexivity].
Defined.
